(** * Medi_Sure: prescription analysis backend

    A shallow embedding of the orchestration logic of the backend
    (src/backend/main.py, dataset_loader.py, medical_nlp_extractor.py,
    nlp_extractor.py, ocr_reader.py) together with the properties the
    specification states about it.

    Conventions.
    - A Python [str] is a [string].  Prescription text is taken over the
      ASCII range; [lower], [upper] and [strip] act as Python's do there
      and leave every other byte alone.
    - A confidence is a rational number ([Q]); the code only compares
      confidences, it never computes with them on the modelled paths.
    - A [dict] whose iteration order is observable is an association list
      in insertion order.
    - Model calls, OCR engines and regular-expression passes are oracles:
      functions handed to the code that uses them. *)

From Stdlib Require Import Bool Arith ZArith QArith Lia List.
From Stdlib Require Import Ascii String.
From Stdlib Require DecimalString.
Import ListNotations.

Local Open Scope list_scope.
Local Open Scope string_scope.

(* ===================================================================== *)
(** ** Python string operations *)
(* ===================================================================== *)

Module PyStr.

Definition is_upper (c : ascii) : bool :=
  let n := nat_of_ascii c in (65 <=? n)%nat && (n <=? 90)%nat.

Definition is_lower (c : ascii) : bool :=
  let n := nat_of_ascii c in (97 <=? n)%nat && (n <=? 122)%nat.

Definition is_alpha (c : ascii) : bool := is_upper c || is_lower c.

(** [str.isspace] on the ASCII range: TAB, LF, VT, FF, CR, FS, GS, RS, US
    and the space. *)
Definition is_space (c : ascii) : bool :=
  let n := nat_of_ascii c in
  ((9 <=? n)%nat && (n <=? 13)%nat) || ((28 <=? n)%nat && (n <=? 32)%nat).

Definition lower_char (c : ascii) : ascii :=
  if is_upper c then ascii_of_nat (nat_of_ascii c + 32) else c.

Definition upper_char (c : ascii) : ascii :=
  if is_lower c then ascii_of_nat (nat_of_ascii c - 32) else c.

(** [s.lower()] *)
Fixpoint lower (s : string) : string :=
  match s with
  | EmptyString => EmptyString
  | String c s' => String (lower_char c) (lower s')
  end.

(** [s.upper()] *)
Fixpoint upper (s : string) : string :=
  match s with
  | EmptyString => EmptyString
  | String c s' => String (upper_char c) (upper s')
  end.

Fixpoint lstrip (s : string) : string :=
  match s with
  | EmptyString => EmptyString
  | String c s' => if is_space c then lstrip s' else s
  end.

Fixpoint rstrip (s : string) : string :=
  match s with
  | EmptyString => EmptyString
  | String c s' =>
      match rstrip s' with
      | EmptyString => if is_space c then EmptyString else String c EmptyString
      | r => String c r
      end
  end.

(** [s.strip()] *)
Definition strip (s : string) : string := lstrip (rstrip s).

(** [sub in s] *)
Fixpoint contains (sub s : string) : bool :=
  if prefix sub s then true
  else match s with
       | EmptyString => false
       | String _ s' => contains sub s'
       end.

Fixpoint find_from (i : Z) (sub s : string) : Z :=
  if prefix sub s then i
  else match s with
       | EmptyString => (-1)%Z
       | String _ s' => find_from (i + 1) sub s'
       end.

(** [s.find(sub)]: the lowest index at which [sub] occurs, or -1. *)
Definition find (s sub : string) : Z := find_from 0 sub s.

(** [s.replace(old, new)] for a non-empty [old]: occurrences are replaced
    from the left and do not overlap.  [skip] counts the characters of an
    occurrence already replaced that are still to be passed over. *)
Fixpoint replace_aux (old new : string) (skip : nat) (s : string) : string :=
  match s with
  | EmptyString => EmptyString
  | String c s' =>
      match skip with
      | S k => replace_aux old new k s'
      | O =>
          if prefix old s
          then new ++ replace_aux old new (String.length old - 1) s'
          else String c (replace_aux old new 0 s')
      end
  end.

Definition replace (s old new : string) : string := replace_aux old new 0 s.

(** [s.title()]: a cased character is upper-cased after an uncased one and
    lower-cased after a cased one. *)
Fixpoint title_aux (prev_cased : bool) (s : string) : string :=
  match s with
  | EmptyString => EmptyString
  | String c s' =>
      String (if prev_cased then lower_char c else upper_char c)
             (title_aux (is_alpha c) s')
  end.

Definition title (s : string) : string := title_aux false s.

(** [sep.join(parts)] *)
Fixpoint join (sep : string) (parts : list string) : string :=
  match parts with
  | [] => EmptyString
  | [p] => p
  | p :: rest => p ++ sep ++ join sep rest
  end.

(** Truthiness of a string: [bool(s)]. *)
Definition truthy (s : string) : bool :=
  match s with EmptyString => false | _ => true end.

End PyStr.

(* ===================================================================== *)
(** ** dataset_loader.py: identity resolution and interaction lookup *)
(* ===================================================================== *)

Module DatasetLoader.

(** [self.drug_mapping]: the JSON object of drug_mapping.json, a dict from
    lower-case drug name to DrugBank identifier, in iteration order. *)
Definition DrugMapping := list (string * string).

(** [self.drug_mapping[key]] when [key in self.drug_mapping]. *)
Fixpoint mapping_get (drug_mapping : DrugMapping) (key : string)
  : option string :=
  match drug_mapping with
  | [] => None
  | (mapped_name, drugbank_id) :: rest =>
      if mapped_name =? key then Some drugbank_id else mapping_get rest key
  end.

(** The test of the fuzzy pass. *)
Definition fuzzy_match (drug_name_lower mapped_name : string) : bool :=
  PyStr.contains drug_name_lower mapped_name
  || PyStr.contains mapped_name drug_name_lower.

(** The loop over [self.drug_mapping.items()]: the first match returns. *)
Fixpoint fuzzy_lookup (drug_mapping : DrugMapping) (drug_name_lower : string)
  : option string :=
  match drug_mapping with
  | [] => None
  | (mapped_name, drugbank_id) :: rest =>
      if fuzzy_match drug_name_lower mapped_name then Some drugbank_id
      else fuzzy_lookup rest drug_name_lower
  end.

(** [DatasetLoader.get_drugbank_id] *)
Definition get_drugbank_id (drug_mapping : DrugMapping) (drug_name : string)
  : string :=
  let drug_name_lower := PyStr.strip (PyStr.lower drug_name) in
  match mapping_get drug_mapping drug_name_lower with
  | Some drugbank_id => drugbank_id
  | None =>
      match fuzzy_lookup drug_mapping drug_name_lower with
      | Some drugbank_id => drugbank_id
      | None => "DB_UNKNOWN_" ++ PyStr.upper drug_name
      end
  end.

(** A row of [self.hoddi_data].  The two identifier columns are read by
    name; [severity] and [description] are read with [Series.get], which
    falls back to a default when the column is absent ([None] here). *)
Record HoddiRow := mkHoddiRow {
  drug1_drugbank_id : string;
  drug2_drugbank_id : string;
  severity : option string;
  description : option string
}.

(** [self.hoddi_data]: the rows of the table; [.empty] is "no rows". *)
Definition HoddiData := list HoddiRow.

(** The boolean mask built in [check_drug_interaction]. *)
Definition pair_mask (drug1_id drug2_id : string) (row : HoddiRow) : bool :=
  ((drug1_drugbank_id row =? drug1_id)
   && (drug2_drugbank_id row =? drug2_id))
  || ((drug1_drugbank_id row =? drug2_id)
      && (drug2_drugbank_id row =? drug1_id)).

Definition get_default (cell : option string) (default : string) : string :=
  match cell with Some v => v | None => default end.

(** [DatasetLoader.check_drug_interaction] *)
Definition check_drug_interaction (drug_mapping : DrugMapping)
  (hoddi_data : HoddiData) (drug1 drug2 : string) : string :=
  match hoddi_data with
  | [] => "Dataset not available"
  | _ =>
      let drug1_id := get_drugbank_id drug_mapping drug1 in
      let drug2_id := get_drugbank_id drug_mapping drug2 in
      let interaction := filter (pair_mask drug1_id drug2_id) hoddi_data in
      match interaction with
      | row :: _ =>
          get_default (severity row) "Unknown" ++ ": "
          ++ get_default (description row) "Drug interaction detected"
      | [] => "None"
      end
  end.

(** [enumerate(l)], counting from [i]. *)
Fixpoint enumerate_from {A : Type} (i : nat) (l : list A) : list (nat * A) :=
  match l with
  | [] => []
  | x :: rest => (i, x) :: enumerate_from (S i) rest
  end.

Definition enumerate {A : Type} (l : list A) : list (nat * A) :=
  enumerate_from 0 l.

(** An entry of the list returned by [get_interaction]: the dict with keys
    "drug", "drugbank_id" and "interaction". *)
Record InteractionResult := mkInteractionResult {
  ir_drug : string;
  ir_drugbank_id : string;
  ir_interaction : string
}.

(** The inner loop of [get_interaction] for the drug at index [i]. *)
Definition interactions_of (drug_mapping : DrugMapping)
  (hoddi_data : HoddiData) (drugs : list string) (i : nat) (drug : string)
  : list string :=
  flat_map
    (fun '(j, other_drug) =>
       if negb (i =? j)%nat then
         let interaction :=
           check_drug_interaction drug_mapping hoddi_data drug other_drug in
         if negb (interaction =? "None")
         then ["with " ++ other_drug ++ ": " ++ interaction]
         else []
       else [])
    (enumerate drugs).

(** [DatasetLoader.get_interaction] *)
Definition get_interaction (drug_mapping : DrugMapping)
  (hoddi_data : HoddiData) (drugs : list string) : list InteractionResult :=
  map
    (fun '(i, drug) =>
       let interactions :=
         interactions_of drug_mapping hoddi_data drugs i drug in
       mkInteractionResult
         (PyStr.strip drug)
         (get_drugbank_id drug_mapping drug)
         (match interactions with
          | [] => "None"
          | _ => PyStr.join "; " interactions
          end))
    (enumerate drugs).

(** The other drugs of the list, seen from index [i]. *)
Definition others_of (i : nat) (drugs : list string) : list string :=
  map snd (filter (fun '(j, _) => negb (i =? j)%nat) (enumerate drugs)).

(** What an empty interaction table makes of the drug at index [i]. *)
Definition unavailable_text (i : nat) (drugs : list string) : string :=
  match others_of i drugs with
  | [] => "None"
  | others =>
      PyStr.join "; "
        (map (fun other => "with " ++ other ++ ": Dataset not available")
             others)
  end.

(** A small mapping table and interaction table for the examples. *)
Definition sample_mapping : DrugMapping :=
  [ ("aspirin", "DB00945"); ("warfarin", "DB00682");
    ("ibuprofen", "DB01050"); ("amoxicillin", "DB01060") ].

Definition sample_hoddi : HoddiData :=
  [ mkHoddiRow "DB00682" "DB00945" (Some "Severe") (Some "bleeding risk");
    mkHoddiRow "DB00945" "DB01050" (Some "Moderate") (Some "reduced effect") ].

End DatasetLoader.

(* ===================================================================== *)
(** ** main.py: dosage rules, risk aggregation and the two endpoints *)
(* ===================================================================== *)

Module Main.

Import DatasetLoader.

(** [class DrugInfo(BaseModel)]; the two optional fields default to None. *)
Record DrugInfo := mkDrugInfo {
  di_name : string;
  di_dosage : string;
  di_frequency : string;
  di_drugbank_id : option string;
  di_interaction : option string
}.

(** [class DosageAdvice(BaseModel)] *)
Record DosageAdvice := mkDosageAdvice {
  da_drug : string;
  current_dosage : string;
  recommended_dosage : string;
  advice : string;
  risk_level : string
}.

(** [class Alternative(BaseModel)] *)
Record Alternative := mkAlternative {
  original_drug : string;
  alternative : string;
  reason : string
}.

(** [_extract_severity] *)
Definition _extract_severity (interaction_text : string) : string :=
  let interaction_lower := PyStr.lower interaction_text in
  if PyStr.contains "severe" interaction_lower
     || PyStr.contains "major" interaction_lower then "High"
  else if PyStr.contains "moderate" interaction_lower
          || PyStr.contains "warning" interaction_lower then "Medium"
  else "Low".

(** The two counters of [_calculate_overall_risk]. *)
Record RiskCount := mkRiskCount {
  high_risk_count : nat;
  medium_risk_count : nat
}.

(** Body of the first loop: one interaction result. *)
Definition count_interaction (c : RiskCount) (result : InteractionResult)
  : RiskCount :=
  if negb (ir_interaction result =? "None") then
    let severity := _extract_severity (ir_interaction result) in
    if severity =? "High" then
      mkRiskCount (high_risk_count c + 1) (medium_risk_count c)
    else if severity =? "Medium" then
      mkRiskCount (high_risk_count c) (medium_risk_count c + 1)
    else c
  else c.

(** Body of the second loop: one dosage advice. *)
Definition count_advice (c : RiskCount) (a : DosageAdvice) : RiskCount :=
  if risk_level a =? "High" then
    mkRiskCount (high_risk_count c + 1) (medium_risk_count c)
  else if risk_level a =? "Medium" then
    mkRiskCount (high_risk_count c) (medium_risk_count c + 1)
  else c.

(** [_calculate_overall_risk] *)
Definition _calculate_overall_risk
  (interaction_results : list InteractionResult)
  (dosage_advice : list DosageAdvice) : string :=
  let c0 := mkRiskCount 0 0 in
  let c1 := fold_left count_interaction interaction_results c0 in
  let c2 := fold_left count_advice dosage_advice c1 in
  if (0 <? high_risk_count c2)%nat then "High"
  else if (0 <? medium_risk_count c2)%nat then "Medium"
  else "Low".

(** *** The signals the specification speaks of *)

Definition mentions (word text : string) : Prop :=
  PyStr.contains word (PyStr.lower text) = true.

(** A High signal: an interaction text other than the sentinel that
    mentions "severe" or "major", or a dosage advice of risk level High. *)
Definition high_signal (irs : list InteractionResult)
  (das : list DosageAdvice) : Prop :=
  (exists r, In r irs /\ ir_interaction r <> "None" /\
             (mentions "severe" (ir_interaction r) \/
              mentions "major" (ir_interaction r)))
  \/ (exists a, In a das /\ risk_level a = "High").

Definition medium_signal (irs : list InteractionResult)
  (das : list DosageAdvice) : Prop :=
  (exists r, In r irs /\ ir_interaction r <> "None" /\
             (mentions "moderate" (ir_interaction r) \/
              mentions "warning" (ir_interaction r)))
  \/ (exists a, In a das /\ risk_level a = "Medium").

(** The two tests of the first loop, as one reads them off the code. *)
Definition counts_high (r : InteractionResult) : bool :=
  negb (ir_interaction r =? "None")
  && (_extract_severity (ir_interaction r) =? "High").

Definition counts_medium (r : InteractionResult) : bool :=
  negb (ir_interaction r =? "None")
  && (_extract_severity (ir_interaction r) =? "Medium").

(** *** Dosage rules and alternatives *)

(** One turn of the loop of [_get_age_based_dosage_advice]. *)
Definition advise (age : Z) (drug : DrugInfo) : DosageAdvice :=
  let current_dosage := di_dosage drug in
  if (age <? 18)%Z then
    if PyStr.contains "500mg" current_dosage then
      mkDosageAdvice (di_name drug) current_dosage
        (PyStr.replace current_dosage "500mg" "250mg")
        "Reduced dosage recommended for pediatric patients" "Medium"
    else if PyStr.contains "1000mg" current_dosage then
      mkDosageAdvice (di_name drug) current_dosage
        (PyStr.replace current_dosage "1000mg" "500mg")
        "Significantly reduced dosage for pediatric use" "High"
    else
      mkDosageAdvice (di_name drug) current_dosage current_dosage
        "Verify pediatric dosing guidelines" "Medium"
  else if (65 <? age)%Z then
    if PyStr.contains "1000mg" current_dosage then
      mkDosageAdvice (di_name drug) current_dosage
        (PyStr.replace current_dosage "1000mg" "750mg")
        "Reduced dosage recommended for elderly patients" "Medium"
    else if PyStr.contains "500mg" current_dosage
            && PyStr.contains "3/day" (di_frequency drug) then
      mkDosageAdvice (di_name drug) current_dosage current_dosage
        "Consider reducing frequency for elderly patients" "Medium"
    else
      mkDosageAdvice (di_name drug) current_dosage current_dosage
        "Standard adult dosage appropriate" "Low"
  else
    mkDosageAdvice (di_name drug) current_dosage current_dosage
      "Standard adult dosage appropriate" "Low".

(** [_get_age_based_dosage_advice] *)
Definition _get_age_based_dosage_advice (drugs : list DrugInfo) (age : Z)
  : list DosageAdvice :=
  map (advise age) drugs.

Definition alternative_map : list (string * string) :=
  [ ("paracetamol", "ibuprofen"); ("acetaminophen", "ibuprofen");
    ("aspirin", "paracetamol"); ("ibuprofen", "naproxen");
    ("warfarin", "rivaroxaban"); ("metformin", "glipizide") ].

(** [_suggest_alternatives]; the list of drugs is not read by the code. *)
Definition _suggest_alternatives (drugs : list DrugInfo)
  (interaction_results : list InteractionResult) : list Alternative :=
  let alternatives :=
    flat_map
      (fun result =>
         if negb (ir_interaction result =? "None")
            && PyStr.contains "severe" (PyStr.lower (ir_interaction result))
         then
           let drug_name := PyStr.lower (ir_drug result) in
           match mapping_get alternative_map drug_name with
           | Some alt =>
               [ mkAlternative (ir_drug result) (PyStr.title alt)
                   ("Safer alternative due to interaction risk: "
                    ++ ir_interaction result) ]
           | None => []
           end
         else [])
      interaction_results in
  firstn 2 alternatives.

(** *** The two endpoints *)

(** What a request handler can raise: FastAPI's [HTTPException], or any
    other exception (carried with its message). *)
Inductive PyExc :=
| HTTPException (status_code : nat) (detail : string)
| OtherException (message : string).

(** A computation that returns or raises. *)
Definition Raises (A : Type) : Type := (PyExc + A)%type.

Definition bind {A B : Type} (m : Raises A) (k : A -> Raises B) : Raises B :=
  match m with
  | inl e => inl e
  | inr a => k a
  end.

Notation "x <- m ;; k" := (bind m (fun x => k))
  (at level 61, m at next level, right associativity).

(** A drug as the extractor reports it: keys "name", "dosage" and
    "frequency". *)
Record ExtractedDrug := mkExtractedDrug {
  ed_name : string;
  ed_dosage : string;
  ed_frequency : string
}.

(** [class PrescriptionRequest(BaseModel)] *)
Record PrescriptionRequest := mkPrescriptionRequest {
  age : Z;
  prescription_text : string
}.

(** The part of an [UploadFile] the handler reads. *)
Record UploadFile := mkUploadFile {
  content_type : option string;
  filename : string
}.

(** An entry of the interactions summary. *)
Record InteractionSummary := mkInteractionSummary {
  is_drug : string;
  is_drugbank_id : string;
  is_interaction : string;
  is_severity : string
}.

(** [class AnalysisResponse(BaseModel)] *)
Record AnalysisResponse := mkAnalysisResponse {
  extracted_drugs : list DrugInfo;
  interactions : list InteractionSummary;
  dosage_advice : list DosageAdvice;
  alternatives : list Alternative;
  overall_risk : string;
  timestamp : string
}.

(** [class ImageAnalysisResponse(BaseModel)] *)
Record ImageAnalysisResponse := mkImageAnalysisResponse {
  extracted_text : string;
  img_drugs : list DrugInfo;
  img_interactions : list InteractionSummary;
  img_dosage_advice : list DosageAdvice;
  img_alternatives : list Alternative;
  img_overall_risk : string;
  img_timestamp : string
}.

(** The module-level services of main.py.  [DrugExtractor] and [OCRReader]
    are imported collaborators: [extract_drugs] gives the value under the
    key "drugs" of its result ([None] when the key is absent),
    [extract_text_from_image] the text read from the saved file.
    [save_upload] stands for the [with] block that creates the temporary
    file, reads the upload and writes it, giving the path of the file;
    when it raises, [temp_file_bound] tells whether the temporary file
    had already been created, that is whether the exception came from
    reading the upload or writing the file rather than from creating it.
    [exc_str] is [str(e)] and [now] is [datetime.now().isoformat()]. *)
Record Services := mkServices {
  extract_drugs : string -> Raises (option (list ExtractedDrug));
  extract_text_from_image : string -> Raises string;
  save_upload : UploadFile -> Raises string;
  temp_file_bound : UploadFile -> bool;
  exc_str : PyExc -> string;
  now : string;
  drug_mapping : DrugMapping;
  hoddi_data : HoddiData
}.

(** [extraction_result.get("drugs", [])] *)
Definition drugs_or_empty (drugs : option (list ExtractedDrug))
  : list ExtractedDrug :=
  match drugs with Some l => l | None => [] end.

(** [next((result for result in interaction_results if ...), default)]
    followed by the construction of the [DrugInfo]. *)
Definition enhance (interaction_results : list InteractionResult)
  (drug : ExtractedDrug) : DrugInfo :=
  match
    List.find
      (fun result =>
         PyStr.lower (ir_drug result) =? PyStr.lower (ed_name drug))
      interaction_results
  with
  | Some info =>
      mkDrugInfo (ed_name drug) (ed_dosage drug) (ed_frequency drug)
        (Some (ir_drugbank_id info)) (Some (ir_interaction info))
  | None =>
      mkDrugInfo (ed_name drug) (ed_dosage drug) (ed_frequency drug)
        None (Some "None")
  end.

Definition summarize (interaction_results : list InteractionResult)
  : list InteractionSummary :=
  flat_map
    (fun result =>
       if negb (ir_interaction result =? "None") then
         [ mkInteractionSummary (ir_drug result) (ir_drugbank_id result)
             (ir_interaction result)
             (_extract_severity (ir_interaction result)) ]
       else [])
    interaction_results.

(** The steps both handlers run once the drugs are known: interactions,
    dosage advice, alternatives, overall risk and the summary. *)
Definition analyze (svc : Services) (the_age : Z)
  (the_drugs : list ExtractedDrug) : AnalysisResponse :=
  let drug_names := map ed_name the_drugs in
  let interaction_results :=
    get_interaction (drug_mapping svc) (hoddi_data svc) drug_names in
  let enhanced_drugs := map (enhance interaction_results) the_drugs in
  let advice_list := _get_age_based_dosage_advice enhanced_drugs the_age in
  let alts := _suggest_alternatives enhanced_drugs interaction_results in
  let risk := _calculate_overall_risk interaction_results advice_list in
  mkAnalysisResponse enhanced_drugs (summarize interaction_results)
    advice_list alts risk (now svc).

(** The [try] block of [analyze_prescription]. *)
Definition analyze_prescription_body (svc : Services)
  (request : PrescriptionRequest) : Raises AnalysisResponse :=
  extraction_result <- extract_drugs svc (prescription_text request) ;;
  let the_drugs := drugs_or_empty extraction_result in
  match the_drugs with
  | [] => inl (HTTPException 400 "No drugs found in prescription text")
  | _ => inr (analyze svc (age request) the_drugs)
  end.

(** [analyze_prescription]: the single handler [except Exception] turns
    whatever the block raised into a 500. *)
Definition analyze_prescription (svc : Services)
  (request : PrescriptionRequest) : Raises AnalysisResponse :=
  match analyze_prescription_body svc request with
  | inr response => inr response
  | inl e => inl (HTTPException 500 ("Analysis failed: " ++ exc_str svc e))
  end.

(** The details of two of the errors of the image endpoint. *)
Definition no_readable_text : string :=
  "Could not extract readable text from image. "
  ++ "Please ensure the image is clear and contains prescription text.".

Definition no_drugs_in_image : string :=
  "No drugs found in prescription image. "
  ++ "Please ensure the image contains a valid prescription.".

(** The [UnboundLocalError] of the [finally] clause, which reads
    [temp_file_path] where it was never assigned (in the wording of
    Python 3.11 and later). *)
Definition unbound_temp_file_path : PyExc :=
  OtherException
    ("cannot access local variable 'temp_file_path' "
     ++ "where it is not associated with a value").

(** The [try] block of [analyze_prescription_image] with its [finally]
    clause.  The clause removes the temporary file once its path is
    known.  When the upload could not be read or written, [temp_file] is
    bound and [temp_file_path] is not: the clause then raises
    [UnboundLocalError], which takes the place of the exception under
    way.  When the file could not even be created, [temp_file] is still
    [None], the clause does nothing and the exception goes on. *)
Definition analyze_prescription_image_body (svc : Services) (the_age : Z)
  (image : UploadFile) : Raises ImageAnalysisResponse :=
  let bad_type :=
    match content_type image with
    | None => true
    | Some ct => negb (PyStr.truthy ct) || negb (prefix "image/" ct)
    end in
  if bad_type then
    inl (HTTPException 400 "Invalid image format. Please upload JPG or PNG.")
  else
    match save_upload svc image with
    | inl e =>
        if temp_file_bound svc image then inl unbound_temp_file_path
        else inl e
    | inr temp_file_path =>
        text <- extract_text_from_image svc temp_file_path ;;
        if negb (PyStr.truthy text)
           || (String.length (PyStr.strip text) <? 10)%nat
        then
          inl (HTTPException 400 no_readable_text)
        else
          extraction_result <- extract_drugs svc text ;;
          let the_drugs := drugs_or_empty extraction_result in
          match the_drugs with
          | [] =>
              inl (HTTPException 400 no_drugs_in_image)
          | _ =>
              let a := analyze svc the_age the_drugs in
              inr (mkImageAnalysisResponse text (extracted_drugs a)
                     (interactions a) (dosage_advice a) (alternatives a)
                     (overall_risk a) (timestamp a))
          end
    end.

(** [analyze_prescription_image]: [except HTTPException: raise] comes
    first, then [except Exception]. *)
Definition analyze_prescription_image (svc : Services) (the_age : Z)
  (image : UploadFile) : Raises ImageAnalysisResponse :=
  match analyze_prescription_image_body svc the_age image with
  | inr response => inr response
  | inl (HTTPException code detail) => inl (HTTPException code detail)
  | inl e =>
      inl (HTTPException 500 ("Image analysis failed: " ++ exc_str svc e))
  end.

(** The status code a caller sees. *)
Definition status_of {A : Type} (r : Raises A) : nat :=
  match r with
  | inr _ => 200
  | inl (HTTPException code _) => code
  | inl (OtherException _) => 500
  end.

(** [str(n)] for a status code. *)
Definition str_nat (n : nat) : string :=
  DecimalString.NilEmpty.string_of_uint (Nat.to_uint n).

(** Sample services: an extractor that recognises nothing in "hello",
    and a rendering of exceptions that gives an [HTTPException] as
    Starlette does, status then detail, and any other one by its
    message. *)
Definition sample_exc_str (e : PyExc) : string :=
  match e with
  | HTTPException code detail => str_nat code ++ ": " ++ detail
  | OtherException message => message
  end.

Definition sample_services : Services :=
  mkServices
    (fun text =>
       if PyStr.contains "aspirin" (PyStr.lower text)
       then inr (Some [mkExtractedDrug "aspirin" "500mg" "3/day"])
       else inr (Some []))
    (fun _ => inr "hello world, nothing to see here")
    (fun _ => inr "/tmp/upload.png")
    (fun _ => true)
    sample_exc_str
    "2024-03-20T10:00:00"
    sample_mapping
    sample_hoddi.

Definition sample_request : PrescriptionRequest :=
  mkPrescriptionRequest 30 "hello".

Definition sample_image : UploadFile :=
  mkUploadFile (Some "image/png") "rx.png".

(** Sample inputs for the risk rule: a High interaction among Medium and
    Low ones. *)
Definition sample_interactions : list InteractionResult :=
  [ mkInteractionResult "ibuprofen" "DB01050"
      "with aspirin: Moderate: reduced effect";
    mkInteractionResult "warfarin" "DB00682"
      "with aspirin: Severe: bleeding risk";
    mkInteractionResult "amoxicillin" "DB01060" "None" ].

Definition sample_advice : list DosageAdvice :=
  [ mkDosageAdvice "ibuprofen" "400mg" "400mg"
      "Standard adult dosage appropriate" "Low";
    mkDosageAdvice "warfarin" "500mg" "500mg"
      "Consider reducing frequency for elderly patients" "Medium" ].

End Main.

(* ===================================================================== *)
(** ** medical_nlp_extractor.py: fusion and attribute binding *)
(* ===================================================================== *)

Module MedicalNLPExtractor.

(** [a < b] on confidences. *)
Definition Qltb (a b : Q) : bool := negb (Qle_bool b a).

(** An element of [result['drugs']]: a dict, read through
    [drug.get('name', drug.get('text', ''))], or anything else, read
    through [str(drug)]. *)
Inductive DrugItem :=
| DrugDict (name text : option string)
| DrugOther (str : string).

(** [result['results']] of the pattern extractor; every key is read with
    [.get(key, [])]. *)
Record PatternData := mkPatternData {
  pd_drugs : option (list string);
  pd_dosages : option (list string);
  pd_frequencies : option (list string);
  pd_routes : option (list string);
  pd_durations : option (list string)
}.

(** The dict an extractor returns; an absent key is [None]. *)
Record ExtractionResult := mkExtractionResult {
  method : option string;
  confidence : option Q;
  drugs : option (list DrugItem);
  drug_candidates : option (list string);
  results : option PatternData
}.

(** A value of [all_drugs]: keys 'name', 'confidence' and 'method'. *)
Record Entry := mkEntry {
  e_name : string;
  e_confidence : Q;
  e_method : string
}.

(** [all_drugs]: a dict from dedup key to entry, in insertion order. *)
Definition AllDrugs := list (string * Entry).

Fixpoint dict_get (d : AllDrugs) (key : string) : option Entry :=
  match d with
  | [] => None
  | (k, v) :: rest => if k =? key then Some v else dict_get rest key
  end.

(** [d[key] = v]: an existing key keeps its place, a new one goes last. *)
Fixpoint dict_set (d : AllDrugs) (key : string) (v : Entry) : AllDrugs :=
  match d with
  | [] => [(key, v)]
  | (k, w) :: rest =>
      if k =? key then (k, v) :: rest else (k, w) :: dict_set rest key v
  end.

(** The dedup key of a mention. *)
Definition name_key (name : string) : string :=
  PyStr.strip (PyStr.lower name).

(** The test-and-store shared by the three branches:
    [if name_key not in all_drugs or
        all_drugs[name_key]['confidence'] < confidence: ...]. *)
Definition record_mention (the_method : string) (the_confidence : Q)
  (all_drugs : AllDrugs) (name : string) : AllDrugs :=
  let key := name_key name in
  match dict_get all_drugs key with
  | None => dict_set all_drugs key (mkEntry name the_confidence the_method)
  | Some stored =>
      if Qltb (e_confidence stored) the_confidence
      then dict_set all_drugs key (mkEntry name the_confidence the_method)
      else all_drugs
  end.

Definition item_name (drug : DrugItem) : string :=
  match drug with
  | DrugDict (Some n) _ => n
  | DrugDict None (Some t) => t
  | DrugDict None None => EmptyString
  | DrugOther s => s
  end.

Definition or_empty {A : Type} (l : option (list A)) : list A :=
  match l with Some x => x | None => [] end.

(** One turn of the outer loop of [_combine_drug_extractions]. *)
Definition collect (all_drugs : AllDrugs) (result : ExtractionResult)
  : AllDrugs :=
  let the_method :=
    match method result with Some m => m | None => "Unknown" end in
  let the_confidence :=
    match confidence result with Some c => c | None => 0 end in
  match drugs result with
  | Some ds =>
      fold_left
        (fun acc drug =>
           let name := item_name drug in
           if PyStr.truthy name && (2 <? String.length name)%nat
           then record_mention the_method the_confidence acc name
           else acc)
        ds all_drugs
  | None =>
      match drug_candidates result with
      | Some cs =>
          fold_left (record_mention the_method the_confidence) cs all_drugs
      | None =>
          match results result with
          | Some data =>
              fold_left (record_mention the_method the_confidence)
                (or_empty (pd_drugs data)) all_drugs
          | None => all_drugs
          end
      end
  end.

(** [@dataclass class DrugEntity] *)
Record DrugEntity := mkDrugEntity {
  de_name : string;
  de_dosage : string;
  de_frequency : string;
  de_route : string;
  de_duration : string;
  de_instructions : string;
  de_confidence : Q
}.

(** The state of the loop of [_find_closest_match]; [None] is
    [float('inf')]. *)
Definition Closest := (string * option Z)%type.

Definition closer (distance : Z) (min_distance : option Z) : bool :=
  match min_distance with
  | None => true
  | Some m => (distance <? m)%Z
  end.

Definition closest_step (text : string) (drug_pos : Z) (st : Closest)
  (candidate : string) : Closest :=
  let candidate_pos := PyStr.find (PyStr.lower text) (PyStr.lower candidate) in
  if negb (candidate_pos =? -1)%Z then
    let distance := Z.abs (candidate_pos - drug_pos) in
    if closer distance (snd st) then (candidate, Some distance) else st
  else st.

(** [MedicalNLPExtractor._find_closest_match] *)
Definition _find_closest_match (drug_name : string)
  (candidates : list string) (text : string) : string :=
  match candidates with
  | [] => EmptyString
  | first :: _ =>
      let drug_pos :=
        PyStr.find (PyStr.lower text) (PyStr.lower drug_name) in
      if (drug_pos =? -1)%Z then first
      else
        fst (fold_left (closest_step text drug_pos) candidates
               (EmptyString, None))
  end.

(** [next((r for r in results if r.get('method') == 'Pattern Matching'),
    {}).get('results', {})] *)
Definition pattern_data_of (the_results : list ExtractionResult)
  : option PatternData :=
  match
    List.find
      (fun r => match method r with
                | Some m => m =? "Pattern Matching"
                | None => false
                end)
      the_results
  with
  | Some r => results r
  | None => None
  end.

Definition field (get : PatternData -> option (list string))
  (data : option PatternData) : list string :=
  match data with
  | Some d => or_empty (get d)
  | None => []
  end.

(** The dict built by the first loop of [_combine_drug_extractions]. *)
Definition all_drugs_of (the_results : list ExtractionResult) : AllDrugs :=
  fold_left collect the_results [].

Definition entity_of (pattern_data : option PatternData) (text : string)
  (drug_data : Entry) : DrugEntity :=
  mkDrugEntity
    (e_name drug_data)
    (_find_closest_match (e_name drug_data)
       (field pd_dosages pattern_data) text)
    (_find_closest_match (e_name drug_data)
       (field pd_frequencies pattern_data) text)
    (_find_closest_match (e_name drug_data)
       (field pd_routes pattern_data) text)
    (_find_closest_match (e_name drug_data)
       (field pd_durations pattern_data) text)
    EmptyString
    (e_confidence drug_data).

(** [MedicalNLPExtractor._combine_drug_extractions] *)
Definition _combine_drug_extractions (the_results : list ExtractionResult)
  (text : string) : list DrugEntity :=
  let all_drugs := all_drugs_of the_results in
  let pattern_data := pattern_data_of the_results in
  map (fun kv => entity_of pattern_data text (snd kv)) all_drugs.

(** *** Detections, for the statements *)

(** A mention as it reaches the dedup test. *)
Record Detection := mkDetection {
  d_name : string;
  d_confidence : Q;
  d_method : string
}.

Definition d_key (d : Detection) : string := name_key (d_name d).

(** The mentions of one result that reach the dedup test, in the order
    the code meets them. *)
Definition detections_of (result : ExtractionResult) : list Detection :=
  let the_method :=
    match method result with Some m => m | None => "Unknown" end in
  let the_confidence :=
    match confidence result with Some c => c | None => 0 end in
  let names :=
    match drugs result with
    | Some ds =>
        filter (fun name => PyStr.truthy name && (2 <? String.length name)%nat)
               (map item_name ds)
    | None =>
        match drug_candidates result with
        | Some cs => cs
        | None =>
            match results result with
            | Some data => or_empty (pd_drugs data)
            | None => []
            end
        end
    end in
  map (fun name => mkDetection name the_confidence the_method) names.

Definition detections (the_results : list ExtractionResult)
  : list Detection :=
  flat_map detections_of the_results.

(** The entry a detection is stored as. *)
Definition entry_of (d : Detection) : Entry :=
  mkEntry (d_name d) (d_confidence d) (d_method d).

(** The test-and-store, on a detection. *)
Definition record_detection (all_drugs : AllDrugs) (d : Detection)
  : AllDrugs :=
  record_mention (d_method d) (d_confidence d) all_drugs (d_name d).

(** Every mention a result carries, whatever its length, with the branch
    it sits in. *)
Inductive Branch := InDrugs | InDrugCandidates | InPatternResults.

Definition mentions_of (result : ExtractionResult)
  : list (Branch * string) :=
  match drugs result with
  | Some ds => map (fun d => (InDrugs, item_name d)) ds
  | None =>
      match drug_candidates result with
      | Some cs => map (fun c => (InDrugCandidates, c)) cs
      | None =>
          match results result with
          | Some data =>
              map (fun c => (InPatternResults, c)) (or_empty (pd_drugs data))
          | None => []
          end
      end
  end.

(** [d] is the winner of its key in [ds]: nothing before it with the same
    key reaches its confidence, nothing after it exceeds it. *)
Definition wins (d : Detection) (ds : list Detection) : Prop :=
  exists before after,
    ds = (before ++ d :: after)%list /\
    (forall d', In d' before -> d_key d' = d_key d ->
                (d_confidence d' < d_confidence d)%Q) /\
    (forall d', In d' after -> d_key d' = d_key d ->
                (d_confidence d' <= d_confidence d)%Q).

(** What the first loop of [_combine_drug_extractions] has built after
    the detections [ds]: one entry per key met, each the winner of its
    key. *)
Definition fused_inv (ds : list Detection) (all_drugs : AllDrugs) : Prop :=
  NoDup (map fst all_drugs) /\
  (forall k e, In (k, e) all_drugs ->
               exists d, d_key d = k /\ e = entry_of d /\ wins d ds) /\
  (forall d, In d ds -> In (d_key d) (map fst all_drugs)).

(** The distance the binder compares. *)
Definition position (text s : string) : Z :=
  PyStr.find (PyStr.lower text) (PyStr.lower s).

Definition occurs (text s : string) : Prop := position text s <> (-1)%Z.

Definition distance (text drug_name candidate : string) : Z :=
  Z.abs (position text candidate - position text drug_name).

(** What the loop of [_find_closest_match] knows after the candidates
    [seen]: nothing occurred so far, or the best so far and its split. *)
Definition closest_inv (text drug_name : string) (seen : list string)
  (st : Closest) : Prop :=
  match snd st with
  | None =>
      fst st = EmptyString /\ forall c, In c seen -> ~ occurs text c
  | Some m =>
      exists before after,
        seen = (before ++ fst st :: after)%list /\
        occurs text (fst st) /\
        m = distance text drug_name (fst st) /\
        (forall c, In c before -> occurs text c ->
                   (m < distance text drug_name c)%Z) /\
        (forall c, In c after -> occurs text c ->
                   (m <= distance text drug_name c)%Z)
  end.

(** Sample extractor outputs. *)
Definition pattern_result (names : list string) (dosages : list string)
  : ExtractionResult :=
  mkExtractionResult (Some "Pattern Matching") (Some (6 # 10)) None None
    (Some (mkPatternData (Some names) (Some dosages) (Some []) (Some [])
             (Some []))).

Definition ner_result (names : list string) (c : Q) : ExtractionResult :=
  mkExtractionResult (Some "Drug NER") (Some c)
    (Some (map (fun n => DrugDict (Some n) None) names)) None None.

Definition biobert_result (names : list string) (c : Q) : ExtractionResult :=
  mkExtractionResult (Some "BioBERT") (Some c) None (Some names) None.

End MedicalNLPExtractor.

(* ===================================================================== *)
(** ** The attribute binder of the specification *)
(* ===================================================================== *)

Module BinderSpec.

(** A candidate span with the offset at which the pattern pass matched
    it ([match.start()]); the binder of the code receives the texts
    only. *)
Record AttributeCandidate := mkAttributeCandidate {
  ac_text : string;
  ac_offset : Z
}.

(** The binder in the words of the specification, for comparison with
    [_find_closest_match]: the first candidate when the offset of the
    mention is unknown; otherwise the candidate whose own offset is at
    the least absolute distance from the mention, the earliest on a tie;
    the empty string without candidates. *)
Definition spec_closest_match (mention_offset : Z)
  (candidates : list AttributeCandidate) : string :=
  match candidates with
  | [] => EmptyString
  | first :: rest =>
      if (mention_offset =? -1)%Z then ac_text first
      else
        ac_text
          (fold_left
             (fun best c =>
                if (Z.abs (ac_offset c - mention_offset)
                    <? Z.abs (ac_offset best - mention_offset))%Z
                then c else best)
             rest first)
  end.

(** The candidate stands in the text at its offset. *)
Definition stands_at (text : string) (c : AttributeCandidate) : bool :=
  (0 <=? ac_offset c)%Z
  && (substring (Z.to_nat (ac_offset c)) (String.length (ac_text c)) text
      =? ac_text c).

(** A prescription in which the dosage "5mg" is written twice, and what
    the pattern pass of [_extract_with_patterns] finds in it: the three
    drug names of the second drug-name pattern, and the dosage spans of
    the first and of the second dosage pattern, in that order. *)
Definition repeated_dosage_text : string :=
  "Aspirin 5mg; Ibuprofen 400mg twice daily with food; Warfarin 5mg".

Definition repeated_dosage_names : list string :=
  ["Aspirin"; "Ibuprofen"; "Warfarin"].

Definition repeated_dosage_spans : list AttributeCandidate :=
  [ mkAttributeCandidate "5mg" 8; mkAttributeCandidate "400mg" 23;
    mkAttributeCandidate "5mg" 61;
    mkAttributeCandidate "5mg" 8; mkAttributeCandidate "400mg" 23;
    mkAttributeCandidate "5mg" 61 ].

End BinderSpec.

(* ===================================================================== *)
(** ** Calls to collaborators *)
(* ===================================================================== *)

(** A computation that logs, in order, which collaborators it invoked. *)
Module Calls.

Definition M (E A : Type) : Type := (list E * A)%type.

Definition ret {E A : Type} (a : A) : M E A := ([], a).

Definition bind {E A B : Type} (m : M E A) (k : A -> M E B) : M E B :=
  let (log1, a) := m in
  let (log2, b) := k a in
  ((log1 ++ log2)%list, b).

(** Invoking collaborator [e], which answers [a]. *)
Definition call {E A : Type} (e : E) (a : A) : M E A := ([e], a).

Definition invoked {E A : Type} (m : M E A) : list E := fst m.
Definition value {E A : Type} (m : M E A) : A := snd m.

End Calls.

(* ===================================================================== *)
(** ** ocr_reader.py: the acquisition cascade *)
(* ===================================================================== *)

Module OCRReader.

Import Calls.

Notation "x <- m ;; k" := (Calls.bind m (fun x => k))
  (at level 61, m at next level, right associativity).

Inductive Engine := PaddleOCR | IBMWatson | Tesseract.

(** The dict an engine returns: keys 'text', 'confidence' and 'method'. *)
Record OCRResult := mkOCRResult {
  text : string;
  confidence : Q;
  method : string
}.

(** The reader's collaborators on inputs of type [Input]: [prepare] opens,
    validates and preprocesses the image, giving the processed image and
    the raw bytes or the message of the exception raised; each engine
    gives a result or [None]. *)
Record Reader (Input Picture Bytes : Type) := mkReader {
  prepare : Input -> string + (Picture * Bytes);
  _extract_with_paddle_ocr : Picture -> option OCRResult;
  _extract_with_watson : Bytes -> option OCRResult;
  _extract_with_tesseract : Picture -> option OCRResult
}.

Arguments prepare {Input Picture Bytes} _ _.
Arguments _extract_with_paddle_ocr {Input Picture Bytes} _ _.
Arguments _extract_with_watson {Input Picture Bytes} _ _.
Arguments _extract_with_tesseract {Input Picture Bytes} _ _.

Definition Qltb (a b : Q) : bool := negb (Qle_bool b a).

(** [max(ocr_results, key=lambda x: x['confidence'])] on a non-empty
    list: the first of the largest. *)
Definition max_by_confidence (first : OCRResult) (rest : list OCRResult)
  : OCRResult :=
  fold_left
    (fun best x => if Qltb (confidence best) (confidence x) then x else best)
    rest first.

Definition pool_of (r : option OCRResult) : list OCRResult :=
  match r with Some x => [x] | None => [] end.

(** The short-circuit bars written in the code. *)
Definition paddle_threshold : Q := 6 # 10.
Definition tesseract_threshold : Q := 4 # 10.

Definition all_failed : string :=
  "Failed to extract text using all available OCR methods".

(** [if result and result['confidence'] > bar]: the result clears the
    bar of its engine. *)
Definition clears (bar : Q) (result : option OCRResult) : option OCRResult :=
  match result with
  | Some r => if Qltb bar (confidence r) then Some r else None
  | None => None
  end.

(** [EnhancedOCRReader.extract_text_from_image]: [inl msg] is
    [RuntimeError(msg)].  The [RuntimeError] raised when every method
    failed is caught by the handler of the method and raised again with
    the prefix, like any other exception. *)
Definition extract_text_from_image {Input Picture Bytes : Type}
  (rd : Reader Input Picture Bytes) (image_file : Input)
  : M Engine (string + OCRResult) :=
  match prepare rd image_file with
  | inl msg => ret (inl ("OCR extraction failed: " ++ msg))
  | inr (processed_image, image_bytes) =>
      paddle_result <-
        call PaddleOCR (_extract_with_paddle_ocr rd processed_image) ;;
      match clears paddle_threshold paddle_result with
      | Some r => ret (inr r)
      | None =>
          let ocr_results := pool_of paddle_result in
          watson_result <-
            call IBMWatson (_extract_with_watson rd image_bytes) ;;
          match watson_result with
          | Some w => ret (inr w)
          | None =>
              tesseract_result <-
                call Tesseract (_extract_with_tesseract rd processed_image) ;;
              match clears tesseract_threshold tesseract_result with
              | Some t => ret (inr t)
              | None =>
                  let ocr_results :=
                    (ocr_results ++ pool_of tesseract_result)%list in
                  match ocr_results with
                  | first :: rest => ret (inr (max_by_confidence first rest))
                  | [] => ret (inl ("OCR extraction failed: " ++ all_failed))
                  end
              end
          end
      end
  end.

(** The pool the code is left with when no engine returned at once. *)
Definition retained_pool {Input Picture Bytes : Type}
  (rd : Reader Input Picture Bytes) (processed_image : Picture)
  : list OCRResult :=
  (pool_of (_extract_with_paddle_ocr rd processed_image)
   ++ pool_of (_extract_with_tesseract rd processed_image))%list.

(** The result, if any, does not clear the bar. *)
Definition stays_below (bar : Q) (result : option OCRResult) : Prop :=
  forall r, result = Some r -> (confidence r <= bar)%Q.

Definition every_engine : list Engine := [PaddleOCR; IBMWatson; Tesseract].

(** Sample readers over images that are just numbers: image [n] makes
    PaddleOCR answer with confidence [p n], and so on. *)
Definition answer (name : string) (c : option Q) : option OCRResult :=
  match c with
  | Some q => Some (mkOCRResult ("read by " ++ name) q name)
  | None => None
  end.

Definition sample_reader (p w t : option Q) : Reader nat nat nat :=
  mkReader nat nat nat
    (fun n => inr (n, n))
    (fun _ => answer "PaddleOCR" p)
    (fun _ => answer "IBM Watson" w)
    (fun _ => answer "Tesseract" t).

End OCRReader.

(* ===================================================================== *)
(** ** nlp_extractor.py: the public extraction entry point *)
(* ===================================================================== *)

Module NLPExtractor.

Import Calls.

Notation "x <- m ;; k" := (Calls.bind m (fun x => k))
  (at level 61, m at next level, right associativity).

Inductive Engine := QueryGatortron | RuleBasedExtraction.

(** The dict the entry point returns for a drug. *)
Record DrugRecord := mkDrugRecord {
  drug_name : string;
  dosage : string;
  frequency : string;
  route : string
}.

(** An element of the "drugs" value of the model's answer: a dict with
    the keys it may carry, or anything else. *)
Inductive ModelItem :=
| ItemDict (the_drug_name the_name the_dosage the_frequency the_route
            : option string)
| ItemOther.

(** The dict [query_gatortron] returns: whether it has the key "error",
    and the value under "drugs" if any.  A "drugs" value that is no list
    of dicts yields no standardized drug, as a list of [ItemOther] does. *)
Record ModelAnswer := mkModelAnswer {
  has_error : bool;
  answer_drugs : option (list ModelItem)
}.

Definition get_or (v : option string) (default : string) : string :=
  match v with Some x => x | None => default end.

(** The body of the standardizing loop. *)
Definition standardize (drug : ModelItem) : list DrugRecord :=
  match drug with
  | ItemDict dn n d f r =>
      let standardized_drug :=
        mkDrugRecord (get_or dn (get_or n EmptyString))
          (get_or d EmptyString) (get_or f EmptyString)
          (get_or r EmptyString) in
      if PyStr.truthy (drug_name standardized_drug)
      then [standardized_drug] else []
  | ItemOther => []
  end.

(** [MedicalNERExtractor.extract_drug_info], given the model query and
    the rule-based fallback. *)
Definition extract_drug_info
  (query_gatortron : string -> ModelAnswer)
  (_rule_based_extraction : string -> list DrugRecord)
  (medical_text : string) : M Engine (list DrugRecord) :=
  if negb (PyStr.truthy medical_text)
     || negb (PyStr.truthy (PyStr.strip medical_text))
  then ret []
  else
    result <- call QueryGatortron (query_gatortron medical_text) ;;
    let standardized_drugs :=
      if negb (has_error result) then
        match answer_drugs result with
        | Some the_drugs => flat_map standardize the_drugs
        | None => []
        end
      else [] in
    match standardized_drugs with
    | _ :: _ => ret standardized_drugs
    | [] =>
        call RuleBasedExtraction (_rule_based_extraction medical_text)
    end.

(** The text has nothing but whitespace in it (the empty text too). *)
Fixpoint only_whitespace (s : string) : bool :=
  match s with
  | EmptyString => true
  | String c s' => PyStr.is_space c && only_whitespace s'
  end.

End NLPExtractor.

(* ===================================================================== *)
(** ** main.py: what the handlers make of an exception *)
(* ===================================================================== *)

Module Handlers.

Import Main.



Definition risk_levels : list string := ["Low"; "Medium"; "High"].

End Handlers.

(* ===================================================================== *)
(** ** medical_nlp_extractor.py: the order of the fused entities *)
(* ===================================================================== *)

Module FusionOrder.

Import MedicalNLPExtractor.

(** A key joins the end of the list the first time it is met. *)
Definition add_key (keys : list string) (key : string) : list string :=
  if existsb (String.eqb key) keys then keys else (keys ++ [key])%list.

(** The keys of a run of detections, each at its first occurrence. *)
Definition first_seen (keys : list string) : list string :=
  fold_left add_key keys [].

End FusionOrder.

(* ===================================================================== *)
(** ** dosage_system/backend.py: the dosage calculator *)
(* ===================================================================== *)

Module DosageSystem.

(** A value of [DRUG_DATABASE]. *)
Record DrugRecord := mkDrugRecord {
  base_dose : Q;
  elderly_reduction : Q;
  interactions : list string;
  warnings : list string;
  alternatives : list string
}.

(** [DRUG_DATABASE]: a module-level dict, shared by every call. *)
Definition Database := list (string * DrugRecord).

Definition DRUG_DATABASE : Database :=
  [ ("warfarin",
     mkDrugRecord 5 (1 # 2) ["aspirin"; "ibuprofen"]
       ["Monitor INR levels"; "Bleeding risk"] ["apixaban"; "rivaroxaban"]);
    ("aspirin",
     mkDrugRecord 81 1 ["warfarin"; "ibuprofen"]
       ["GI bleeding risk"; "Avoid with peptic ulcers"] ["clopidogrel"]);
    ("metformin",
     mkDrugRecord 500 (3 # 4) []
       ["Monitor kidney function"; "Lactic acidosis risk"] ["sitagliptin"]) ].

Fixpoint db_get (db : Database) (key : string) : option DrugRecord :=
  match db with
  | [] => None
  | (k, v) :: rest => if k =? key then Some v else db_get rest key
  end.

(** The list under "warnings" of the entry [key], replaced in place:
    what [warnings.append] does to the table when [warnings] is that
    very list. *)
Fixpoint db_set_warnings (db : Database) (key : string)
  (new_warnings : list string) : Database :=
  match db with
  | [] => []
  | (k, v) :: rest =>
      if k =? key
      then (k, mkDrugRecord (base_dose v) (elderly_reduction v)
                 (interactions v) new_warnings (alternatives v)) :: rest
      else (k, v) :: db_set_warnings rest key new_warnings
  end.

(** The dict [calculate_dosage] returns. *)
Record Answer := mkAnswer {
  dosage_range : string;
  frequency : string;
  safety_score : Z;
  a_warnings : list string;
  a_interactions : list string;
  a_alternatives : list string;
  explanation : string
}.

(** [str(n)] for an [int]. *)
Definition str_int (n : Z) : string :=
  DecimalString.NilEmpty.string_of_int (Z.to_int n).

(** [bool(weight)] for an optional number. *)
Definition weight_given (weight : option Q) : bool :=
  match weight with
  | Some w => negb (Qeq_bool w 0)
  | None => false
  end.

(** [min(a, b)]: [b] when it is less than [a], else [a]. *)
Definition py_min (a b : Q) : Q := if Qle_bool a b then a else b.

Definition unknown_drug : Answer :=
  mkAnswer "Consult physician" "As prescribed" 50
    ["Unknown drug - consult healthcare provider"] [] []
    "Drug not found in database".

Definition elderly_warning : string := "Reduce dose for elderly patients".
Definition pediatric_warning : string := "Pediatric dosing - monitor closely".

(** [calculate_dosage], on the table as it stands, giving the answer and
    the table as the call leaves it.  [int_of_product a b] stands for
    [int(a * b)] on floats, used for the two ends of the dosage range.
    Under 65 the name [warnings] is bound to the list of the table
    itself, so the pediatric [append] writes into the table; from 65 on
    it is bound to a fresh list. *)
Definition calculate_dosage (int_of_product : Q -> Q -> Z)
  (db : Database) (drug_name : string) (age : Z) (weight : option Q)
  : Answer * Database :=
  let drug_name_lower := PyStr.lower drug_name in
  match db_get db drug_name_lower with
  | None => (unknown_drug, db)
  | Some drug_info =>
      let elderly := (65 <=? age)%Z in
      let adjusted_dose :=
        if elderly then (base_dose drug_info * elderly_reduction drug_info)%Q
        else base_dose drug_info in
      let the_frequency := if elderly then "once daily" else "twice daily" in
      let score := if elderly then 72%Z else 85%Z in
      let the_warnings :=
        if elderly then (warnings drug_info ++ [elderly_warning])%list
        else warnings drug_info in
      let pediatric := (age <? 18)%Z && weight_given weight in
      let adjusted_dose :=
        if pediatric
        then py_min adjusted_dose
               (match weight with Some w => w | None => 0 end * 2)%Q
        else adjusted_dose in
      let the_warnings :=
        if pediatric then (the_warnings ++ [pediatric_warning])%list
        else the_warnings in
      let db' :=
        if pediatric && negb elderly
        then db_set_warnings db drug_name_lower the_warnings
        else db in
      (mkAnswer
         (str_int (int_of_product adjusted_dose (8 # 10)) ++ "-"
          ++ str_int (int_of_product adjusted_dose (12 # 10)) ++ " mg")
         the_frequency score the_warnings
         (map (fun interaction =>
                 drug_name ++ " + " ++ interaction ++ ": Potential interaction")
              (interactions drug_info))
         (alternatives drug_info)
         ("Dosage calculated based on age (" ++ str_int age
          ++ ") and standard protocols"),
       db')
  end.

(** A call of [calculate_dosage]. *)
Record Call := mkCall {
  c_drug : string;
  c_age : Z;
  c_weight : option Q
}.

(** Calls served one after the other on the shared table. *)
Fixpoint serve (int_of_product : Q -> Q -> Z) (calls : list Call)
  (db : Database) : list Answer * Database :=
  match calls with
  | [] => ([], db)
  | c :: rest =>
      let (a, db1) :=
        calculate_dosage int_of_product db (c_drug c) (c_age c) (c_weight c) in
      let (answers, db2) := serve int_of_product rest db1 in
      (a :: answers, db2)
  end.

(** The warnings the table holds for [key]. *)
Definition db_warnings (db : Database) (key : string) : list string :=
  match db_get db key with
  | Some info => warnings info
  | None => []
  end.

(** The call is for a patient under 18 with a weight given, for the drug
    stored under [key]. *)
Definition pediatric_for (key : string) (c : Call) : bool :=
  (PyStr.lower (c_drug c) =? key) && (c_age c <? 18)%Z
  && weight_given (c_weight c).

(** [int(a * b)] computed exactly, for the examples. *)
Definition exact_int_of_product (a b : Q) : Z :=
  let p := (a * b)%Q in Z.quot (Qnum p) (Z.pos (Qden p)).

End DosageSystem.

(* ===================================================================== *)
(** * Properties *)
(* ===================================================================== *)

(** ** Risk aggregation *)

Section RiskAggregation.

Import DatasetLoader Main.

(** A loop that bumps one of two counters per element, by a test on the
    element alone. *)
Lemma fold_counts (A : Type) (f : RiskCount -> A -> RiskCount)
  (isH isM : A -> bool)
  (Hf : forall c a,
      f c a =
      if isH a then mkRiskCount (high_risk_count c + 1) (medium_risk_count c)
      else if isM a
           then mkRiskCount (high_risk_count c) (medium_risk_count c + 1)
           else c) :
  forall l c,
    ((0 < high_risk_count (fold_left f l c))%nat <->
     (0 < high_risk_count c)%nat \/ exists a, In a l /\ isH a = true) /\
    ((0 < medium_risk_count (fold_left f l c))%nat <->
     (0 < medium_risk_count c)%nat \/
     exists a, In a l /\ isH a = false /\ isM a = true).
Proof.
  induction l as [|x l IH]; intros c; simpl.
  - split; split; auto; intros [H|[a [[] _]]]; exact H.
  - destruct (IH (f c x)) as [IHh IHm]. rewrite IHh, IHm, Hf. clear IHh IHm IH.
    destruct (isH x) eqn:Hx; [|destruct (isM x) eqn:Mx]; simpl; split; split.
    all: try (intros [H|[a [Ha Hp]]];
              [ try (left; lia); try (right; exists x; tauto)
              | right; exists a; tauto ]).
    all: try (intros [H|[a [[->|Ha] Hp]]];
              [ try (left; lia)
              | try (left; lia); try (destruct Hp; congruence); try congruence
              | right; exists a; tauto ]).
Qed.

Lemma severity_high (t : string) :
  _extract_severity t = "High" <->
  mentions "severe" t \/ mentions "major" t.
Proof.
  unfold _extract_severity, mentions.
  destruct (PyStr.contains "severe" (PyStr.lower t));
    destruct (PyStr.contains "major" (PyStr.lower t));
    destruct (PyStr.contains "moderate" (PyStr.lower t));
    destruct (PyStr.contains "warning" (PyStr.lower t)); simpl;
    intuition discriminate.
Qed.

Lemma severity_medium (t : string) :
  _extract_severity t = "Medium" <->
  ~ (mentions "severe" t \/ mentions "major" t) /\
  (mentions "moderate" t \/ mentions "warning" t).
Proof.
  unfold _extract_severity, mentions.
  destruct (PyStr.contains "severe" (PyStr.lower t));
    destruct (PyStr.contains "major" (PyStr.lower t));
    destruct (PyStr.contains "moderate" (PyStr.lower t));
    destruct (PyStr.contains "warning" (PyStr.lower t)); simpl;
    intuition discriminate.
Qed.

Lemma count_interaction_cases (c : RiskCount) (r : InteractionResult) :
  count_interaction c r =
  if counts_high r
  then mkRiskCount (high_risk_count c + 1) (medium_risk_count c)
  else if counts_medium r
       then mkRiskCount (high_risk_count c) (medium_risk_count c + 1)
       else c.
Proof.
  unfold count_interaction, counts_high, counts_medium.
  destruct (ir_interaction r =? "None"); simpl; [reflexivity|].
  destruct (_extract_severity (ir_interaction r) =? "High"); reflexivity.
Qed.

Lemma counts_high_iff (r : InteractionResult) :
  counts_high r = true <->
  ir_interaction r <> "None" /\
  (mentions "severe" (ir_interaction r) \/ mentions "major" (ir_interaction r)).
Proof.
  unfold counts_high.
  rewrite andb_true_iff, negb_true_iff, String.eqb_neq, String.eqb_eq.
  rewrite severity_high. tauto.
Qed.

Lemma counts_medium_iff (r : InteractionResult) :
  counts_medium r = true <->
  ir_interaction r <> "None" /\
  ~ (mentions "severe" (ir_interaction r) \/
     mentions "major" (ir_interaction r)) /\
  (mentions "moderate" (ir_interaction r) \/
   mentions "warning" (ir_interaction r)).
Proof.
  unfold counts_medium.
  rewrite andb_true_iff, negb_true_iff, String.eqb_neq, String.eqb_eq.
  rewrite severity_medium. tauto.
Qed.

Lemma high_count_signal (irs : list InteractionResult)
  (das : list DosageAdvice) :
  (0 < high_risk_count
         (fold_left count_advice das
            (fold_left count_interaction irs (mkRiskCount 0 0))))%nat
  <-> high_signal irs das.
Proof.
  destruct (fold_counts _ count_advice
              (fun a => risk_level a =? "High")
              (fun a => risk_level a =? "Medium")
              (fun c a => eq_refl) das
              (fold_left count_interaction irs (mkRiskCount 0 0))) as [Ha _].
  destruct (fold_counts _ count_interaction counts_high counts_medium
              count_interaction_cases irs (mkRiskCount 0 0)) as [Hi _].
  rewrite Ha, Hi. simpl. unfold high_signal. split.
  - intros [[H|[r [Hr Hc]]]|[a [Hin Hl]]].
    + lia.
    + left. exists r. apply counts_high_iff in Hc. tauto.
    + right. exists a. apply String.eqb_eq in Hl. tauto.
  - intros [[r [Hr Hc]]|[a [Hin Hl]]].
    + left. right. exists r. split; [exact Hr|].
      apply counts_high_iff. exact Hc.
    + right. exists a. split; [exact Hin|]. apply String.eqb_eq. exact Hl.
Qed.

Lemma medium_count_signal (irs : list InteractionResult)
  (das : list DosageAdvice) :
  ~ high_signal irs das ->
  ((0 < medium_risk_count
          (fold_left count_advice das
             (fold_left count_interaction irs (mkRiskCount 0 0))))%nat
   <-> medium_signal irs das).
Proof.
  intros Hno.
  destruct (fold_counts _ count_advice
              (fun a => risk_level a =? "High")
              (fun a => risk_level a =? "Medium")
              (fun c a => eq_refl) das
              (fold_left count_interaction irs (mkRiskCount 0 0))) as [_ Ha].
  destruct (fold_counts _ count_interaction counts_high counts_medium
              count_interaction_cases irs (mkRiskCount 0 0)) as [_ Hi].
  rewrite Ha, Hi. simpl. unfold medium_signal. split.
  - intros [[H|[r [Hr [_ Hc]]]]|[a [Hin [_ Hl]]]].
    + lia.
    + left. exists r. apply counts_medium_iff in Hc. tauto.
    + right. exists a. apply String.eqb_eq in Hl. tauto.
  - intros [[r [Hr [Hn Hc]]]|[a [Hin Hl]]].
    + left. right. exists r. split; [exact Hr|].
      assert (Hnh : ~ (mentions "severe" (ir_interaction r) \/
                       mentions "major" (ir_interaction r))).
      { intros Hh. apply Hno. left. exists r. tauto. }
      split.
      * destruct (counts_high r) eqn:E; [|reflexivity].
        apply counts_high_iff in E. tauto.
      * apply counts_medium_iff. tauto.
    + right. exists a. split; [exact Hin|]. rewrite Hl. split; reflexivity.
Qed.

(** C1.  The overall risk is "High" as soon as one High signal exists (an
    interaction text other than "None" mentioning "severe" or "major" in
    any case, or a dosage advice of risk level "High"), whatever else is
    in the lists; failing that it is "Medium" as soon as one Medium signal
    exists; failing both it is "Low". *)
Theorem overall_risk_is_monotone :
  forall (irs : list InteractionResult) (das : list DosageAdvice),
    (high_signal irs das -> _calculate_overall_risk irs das = "High") /\
    (~ high_signal irs das -> medium_signal irs das ->
     _calculate_overall_risk irs das = "Medium") /\
    (~ high_signal irs das -> ~ medium_signal irs das ->
     _calculate_overall_risk irs das = "Low").
Proof.
  intros irs das. unfold _calculate_overall_risk.
  pose proof (high_count_signal irs das) as Hh.
  pose proof (medium_count_signal irs das) as Hm.
  cbv zeta.
  set (c := fold_left count_advice das
              (fold_left count_interaction irs (mkRiskCount 0 0))) in *.
  destruct (0 <? high_risk_count c)%nat eqn:Eh.
  - apply Nat.ltb_lt in Eh. apply Hh in Eh. repeat split; tauto.
  - apply Nat.ltb_ge in Eh.
    assert (Hno : ~ high_signal irs das) by (intros H; apply Hh in H; lia).
    specialize (Hm Hno).
    destruct (0 <? medium_risk_count c)%nat eqn:Em.
    + apply Nat.ltb_lt in Em. apply Hm in Em. repeat split; tauto.
    + apply Nat.ltb_ge in Em.
      assert (~ medium_signal irs das) by (intros H; apply Hm in H; lia).
      repeat split; tauto.
Qed.

(** The High interaction of the sample wins over its Medium and Low
    neighbours. *)
Lemma overall_risk_is_monotone_witness :
  high_signal sample_interactions sample_advice /\
  _calculate_overall_risk sample_interactions sample_advice = "High".
Proof.
  assert (H : high_signal sample_interactions sample_advice).
  { left. exists (mkInteractionResult "warfarin" "DB00682"
                    "with aspirin: Severe: bleeding risk").
    split; [simpl; tauto|]. split; [discriminate|]. left. reflexivity. }
  split; [exact H|].
  exact (proj1 (overall_risk_is_monotone sample_interactions sample_advice) H).
Defined.

End RiskAggregation.

(** ** Identity resolution and interaction lookup *)

Section Dataset.

Import DatasetLoader.

Lemma prefix_refl (s : string) : prefix s s = true.
Proof.
  induction s as [|c s IH]; simpl; [reflexivity|].
  destruct (ascii_dec c c) as [_|n]; [exact IH | contradiction].
Qed.

Lemma contains_refl (s : string) : PyStr.contains s s = true.
Proof.
  destruct s as [|c s]; [reflexivity|].
  unfold PyStr.contains; fold PyStr.contains.
  rewrite prefix_refl. reflexivity.
Qed.

Lemma pair_mask_sym (x y : string) (row : HoddiRow) :
  pair_mask x y row = pair_mask y x row.
Proof. unfold pair_mask. apply orb_comm. Qed.

(** C3.  The lookup is symmetric: for every pair of drug names and every
    table, [check_drug_interaction] gives the same severity-and-description
    string whichever name comes first, because the mask it builds accepts
    a row in either orientation. *)
Theorem check_drug_interaction_symmetric :
  forall (drug_mapping : DrugMapping) (hoddi_data : HoddiData)
         (drugA drugB : string),
    check_drug_interaction drug_mapping hoddi_data drugA drugB =
    check_drug_interaction drug_mapping hoddi_data drugB drugA.
Proof.
  intros m h a b. unfold check_drug_interaction.
  destruct h as [|row rows]; [reflexivity|].
  rewrite (filter_ext _ _ (pair_mask_sym (get_drugbank_id m a)
                                         (get_drugbank_id m b))).
  reflexivity.
Qed.

(** Warfarin and aspirin on the sample table, in both orders. *)
Example check_drug_interaction_both_orders :
  check_drug_interaction sample_mapping sample_hoddi "Warfarin" "Aspirin"
  = "Severe: bleeding risk" /\
  check_drug_interaction sample_mapping sample_hoddi "Aspirin" "Warfarin"
  = "Severe: bleeding risk" /\
  check_drug_interaction sample_mapping sample_hoddi "Warfarin" "Ibuprofen"
  = "None".
Proof. repeat split. Qed.

Lemma mapping_get_absent (m : DrugMapping) (key : string) :
  ~ In key (map fst m) -> mapping_get m key = None.
Proof.
  induction m as [|[k v] m IH]; simpl; intros H; [reflexivity|].
  destruct (k =? key) eqn:E.
  - apply String.eqb_eq in E. tauto.
  - apply IH. tauto.
Qed.

Lemma mapping_get_present (m : DrugMapping) (key id : string) :
  NoDup (map fst m) -> In (key, id) m -> mapping_get m key = Some id.
Proof.
  induction m as [|[k v] m IH]; simpl; intros Hnd Hin; [contradiction|].
  inversion Hnd as [|? ? Hk Hnd']; subst.
  destruct Hin as [Heq|Hin].
  - inversion Heq; subst. rewrite String.eqb_refl. reflexivity.
  - destruct (k =? key) eqn:E.
    + apply String.eqb_eq in E. subst k.
      exfalso. apply Hk. apply (in_map fst) in Hin. exact Hin.
    + apply IH; assumption.
Qed.

Lemma fuzzy_lookup_first (before after : DrugMapping)
  (key mapped id : string) :
  (forall m i, In (m, i) before -> fuzzy_match key m = false) ->
  fuzzy_match key mapped = true ->
  fuzzy_lookup (before ++ (mapped, id) :: after)%list key = Some id.
Proof.
  induction before as [|[k v] before IH]; simpl; intros Hb Hm.
  - rewrite Hm. reflexivity.
  - rewrite (Hb k v (or_introl eq_refl)). apply IH; [|exact Hm].
    intros m i Hin. apply (Hb m i). right. exact Hin.
Qed.

Lemma fuzzy_lookup_none (m : DrugMapping) (key : string) :
  (forall k i, In (k, i) m -> fuzzy_match key k = false) ->
  fuzzy_lookup m key = None.
Proof.
  induction m as [|[k v] m IH]; simpl; intros H; [reflexivity|].
  rewrite (H k v (or_introl eq_refl)). apply IH.
  intros k' i Hin. apply (H k' i). right. exact Hin.
Qed.

Lemma no_fuzzy_no_key (m : DrugMapping) (key : string) :
  (forall k i, In (k, i) m -> fuzzy_match key k = false) ->
  ~ In key (map fst m).
Proof.
  intros H Hin. apply in_map_iff in Hin. destruct Hin as [[k i] [Hk Hin]].
  simpl in Hk. subst k. specialize (H key i Hin).
  unfold fuzzy_match in H. rewrite contains_refl in H. discriminate.
Qed.

(** C4.  [get_drugbank_id] is a total function that resolves a name in
    this order: with the name lower-cased and trimmed, (1) an entry of the
    mapping table whose key is that name gives its identifier; (2) failing
    that, the first entry in table order whose key contains the name or is
    contained in it gives its identifier; (3) failing both, the answer is
    "DB_UNKNOWN_" followed by the upper-cased name, so that (4) an
    unmapped "Xyzzyblorp" resolves to "DB_UNKNOWN_XYZZYBLORP". *)
Theorem get_drugbank_id_resolution_order :
  forall (drug_mapping : DrugMapping) (drug_name : string),
    let key := PyStr.strip (PyStr.lower drug_name) in
    (forall id,
        NoDup (map fst drug_mapping) -> In (key, id) drug_mapping ->
        get_drugbank_id drug_mapping drug_name = id) /\
    (forall before mapped id after,
        ~ In key (map fst drug_mapping) ->
        drug_mapping = (before ++ (mapped, id) :: after)%list ->
        (forall m i, In (m, i) before -> fuzzy_match key m = false) ->
        fuzzy_match key mapped = true ->
        get_drugbank_id drug_mapping drug_name = id) /\
    ((forall m i, In (m, i) drug_mapping -> fuzzy_match key m = false) ->
     get_drugbank_id drug_mapping drug_name
     = "DB_UNKNOWN_" ++ PyStr.upper drug_name) /\
    ((forall m i, In (m, i) drug_mapping ->
                  fuzzy_match "xyzzyblorp" m = false) ->
     get_drugbank_id drug_mapping "Xyzzyblorp" = "DB_UNKNOWN_XYZZYBLORP").
Proof.
  intros m name key. unfold get_drugbank_id. fold key.
  split; [|split; [|split]].
  - intros id Hnd Hin. rewrite (mapping_get_present m key id Hnd Hin).
    reflexivity.
  - intros before mapped id after Hno Hm Hb Hf.
    rewrite (mapping_get_absent m key Hno). rewrite Hm.
    rewrite (fuzzy_lookup_first before after key mapped id Hb Hf).
    reflexivity.
  - intros H.
    rewrite (mapping_get_absent m key (no_fuzzy_no_key m key H)).
    rewrite (fuzzy_lookup_none m key H). reflexivity.
  - intros H. change (PyStr.strip (PyStr.lower "Xyzzyblorp")) with "xyzzyblorp".
    rewrite (mapping_get_absent m _ (no_fuzzy_no_key m _ H)).
    rewrite (fuzzy_lookup_none m _ H). reflexivity.
Qed.

(** On the sample table: " Aspirin " is an exact key once normalised,
    "aspirin 81mg" falls to the fuzzy pass, "Xyzzyblorp" to the sentinel. *)
Lemma get_drugbank_id_resolution_order_witness :
  get_drugbank_id sample_mapping " Aspirin " = "DB00945" /\
  get_drugbank_id sample_mapping "aspirin 81mg" = "DB00945" /\
  get_drugbank_id sample_mapping "Xyzzyblorp" = "DB_UNKNOWN_XYZZYBLORP".
Proof.
  split; [|split].
  - apply (proj1 (get_drugbank_id_resolution_order sample_mapping " Aspirin ")).
    + simpl. repeat constructor; simpl; intuition discriminate.
    + simpl. tauto.
  - apply (proj1 (proj2 (get_drugbank_id_resolution_order
                           sample_mapping "aspirin 81mg"))
             [] "aspirin" "DB00945"
             [("warfarin", "DB00682"); ("ibuprofen", "DB01050");
              ("amoxicillin", "DB01060")]).
    + simpl. intuition discriminate.
    + reflexivity.
    + intros m i [].
    + reflexivity.
  - apply (proj2 (proj2 (proj2 (get_drugbank_id_resolution_order
                                  sample_mapping "Xyzzyblorp")))).
    intros m i Hin. simpl in Hin.
    repeat (destruct Hin as [Hin|Hin];
            [inversion Hin; subst; reflexivity|]).
    contradiction.
Defined.

Lemma interactions_of_unavailable (drug_mapping : DrugMapping)
  (drugs : list string) (i : nat) (drug : string) :
  interactions_of drug_mapping [] drugs i drug =
  map (fun other => "with " ++ other ++ ": Dataset not available")
      (others_of i drugs).
Proof.
  unfold interactions_of, others_of.
  induction (enumerate drugs) as [|[j other] l IH]; [reflexivity|].
  cbn [flat_map filter]. rewrite IH.
  destruct (i =? j)%nat; reflexivity.
Qed.

(** C5, as the code has it.  With an empty interaction table every
    pairwise lookup answers "Dataset not available" (it does not fail, and
    it does not answer "None"); [get_interaction] still returns one entry
    per drug, whose interaction text is "None" when the list holds no
    other drug and otherwise names every other drug with that answer,
    joined by "; ". *)
Theorem empty_table_lookup :
  forall (drug_mapping : DrugMapping),
    (forall drug1 drug2,
        check_drug_interaction drug_mapping [] drug1 drug2
        = "Dataset not available") /\
    (forall drugs,
        get_interaction drug_mapping [] drugs =
        map (fun '(i, drug) =>
               mkInteractionResult (PyStr.strip drug)
                 (get_drugbank_id drug_mapping drug)
                 (unavailable_text i drugs))
            (enumerate drugs)) /\
    (forall drug,
        map ir_interaction (get_interaction drug_mapping [] [drug])
        = ["None"]) /\
    map ir_interaction (get_interaction drug_mapping [] []) = [].
Proof.
  intros m. split; [|split; [|split]].
  - reflexivity.
  - intros drugs. unfold get_interaction. apply map_ext.
    intros [i drug]. rewrite interactions_of_unavailable.
    unfold unavailable_text.
    destruct (others_of i drugs) as [|o os]; reflexivity.
  - reflexivity.
  - reflexivity.
Qed.

(** With an empty table the lookup for aspirin and warfarin does not
    answer "None". *)
Lemma empty_table_lookup_is_not_None :
  check_drug_interaction sample_mapping [] "aspirin" "warfarin" <> "None" /\
  map ir_interaction
      (get_interaction sample_mapping [] ["aspirin"; "warfarin"])
  <> ["None"; "None"].
Proof. split; discriminate. Qed.

End Dataset.

(** ** Attribute binding *)

Section AttributeBinding.

Import MedicalNLPExtractor.

Variables (text drug_name : string).

Lemma closest_step_inv (seen : list string) (st : Closest) (c : string) :
  closest_inv text drug_name seen st ->
  closest_inv text drug_name (seen ++ [c])
    (closest_step text (position text drug_name) st c).
Proof.
  unfold closest_step. fold (position text c).
  destruct st as [best [m|]]; unfold closest_inv; simpl.
  - intros (before & after & Hs & Ho & Hm & Hb & Ha).
    destruct (position text c =? -1)%Z eqn:E; simpl.
    + apply Z.eqb_eq in E.
      exists before, (after ++ [c])%list. rewrite Hs, <- app_assoc. simpl.
      repeat split; auto.
      intros c' Hin Hc'. apply in_app_or in Hin. destruct Hin as [Hin|[<-|[]]].
      * apply Ha; assumption.
      * contradiction.
    + apply Z.eqb_neq in E.
      fold (distance text drug_name c).
      destruct (distance text drug_name c <? m)%Z eqn:L; simpl.
      * apply Z.ltb_lt in L.
        exists seen, []. repeat split; auto.
        -- intros c' Hin Hc'. rewrite Hs in Hin.
           apply in_app_or in Hin. destruct Hin as [Hin|[<-|Hin]].
           ++ specialize (Hb c' Hin Hc'). lia.
           ++ lia.
           ++ specialize (Ha c' Hin Hc'). lia.
        -- intros c' [].
      * apply Z.ltb_ge in L.
        exists before, (after ++ [c])%list. rewrite Hs, <- app_assoc. simpl.
        repeat split; auto.
        intros c' Hin Hc'. apply in_app_or in Hin.
        destruct Hin as [Hin|[<-|[]]].
        -- apply Ha; assumption.
        -- lia.
  - intros [Hbest Hnone].
    destruct (position text c =? -1)%Z eqn:E; simpl.
    + apply Z.eqb_eq in E. split; [exact Hbest|].
      intros c' Hin. apply in_app_or in Hin. destruct Hin as [Hin|[<-|[]]].
      * apply Hnone. exact Hin.
      * intros H. apply H. exact E.
    + apply Z.eqb_neq in E.
      exists seen, []. repeat split; auto.
      * intros c' Hin Hc'. exfalso. exact (Hnone c' Hin Hc').
      * intros c' [].
Qed.

Lemma closest_fold_inv (l seen : list string) (st : Closest) :
  closest_inv text drug_name seen st ->
  closest_inv text drug_name (seen ++ l)
    (fold_left (closest_step text (position text drug_name)) l st).
Proof.
  revert seen st. induction l as [|c l IH]; intros seen st H; simpl.
  - rewrite app_nil_r. exact H.
  - replace (seen ++ c :: l)%list with ((seen ++ [c]) ++ l)%list
      by (rewrite <- app_assoc; reflexivity).
    apply IH. apply closest_step_inv. exact H.
Qed.

End AttributeBinding.

Section NearestCandidate.

Import MedicalNLPExtractor.

(** What the loop of the binder computes, every position being that of
    the first occurrence of a text in the lower-cased prescription: the
    empty string for an empty candidate list; the first candidate when
    the drug name does not occur; and otherwise, among the candidates
    whose text occurs, the one whose first occurrence is at the least
    absolute distance from that of the drug name, the earliest of them on
    a tie, or the empty string when no candidate text occurs. *)
Theorem find_closest_match_binds_nearest :
  forall (drug_name : string) (candidates : list string) (text : string),
    let r := _find_closest_match drug_name candidates text in
    (candidates = [] -> r = EmptyString) /\
    (forall first rest,
        candidates = first :: rest -> ~ occurs text drug_name -> r = first) /\
    (occurs text drug_name ->
     (forall c, In c candidates -> ~ occurs text c) -> r = EmptyString) /\
    (occurs text drug_name ->
     (exists c, In c candidates /\ occurs text c) ->
     exists before after,
       candidates = (before ++ r :: after)%list /\
       occurs text r /\
       (forall c, In c before -> occurs text c ->
                  (distance text drug_name r < distance text drug_name c)%Z) /\
       (forall c, In c after -> occurs text c ->
                  (distance text drug_name r <= distance text drug_name c)%Z)).
Proof.
  intros drug_name candidates text r.
  split; [|split; [|split]].
  - intros ->. reflexivity.
  - intros first rest -> Hno. unfold r, _find_closest_match.
    fold (position text drug_name).
    destruct (position text drug_name =? -1)%Z eqn:E; [reflexivity|].
    apply Z.eqb_neq in E. contradiction.
  - intros Hocc Hnone. unfold r, _find_closest_match.
    destruct candidates as [|first rest]; [reflexivity|].
    fold (position text drug_name).
    destruct (position text drug_name =? -1)%Z eqn:E.
    { apply Z.eqb_eq in E. contradiction. }
    pose proof (closest_fold_inv text drug_name (first :: rest) []
                  (EmptyString, None)) as H.
    simpl app in H.
    assert (H0 : closest_inv text drug_name [] (EmptyString, None)).
    { split; [reflexivity | intros c []]. }
    specialize (H H0). unfold closest_inv in H.
    remember (fold_left (closest_step text (position text drug_name))
                (first :: rest) (EmptyString, None)) as st eqn:Est.
    clear Est. destruct st as [best [m|]]; simpl in H |- *.
    + destruct H as (before & after & Hs & Ho & _).
      exfalso. apply (Hnone best); [|exact Ho].
      rewrite Hs. apply in_or_app. right. left. reflexivity.
    + tauto.
  - intros Hocc (c & Hin & Hc). unfold r, _find_closest_match.
    destruct candidates as [|first rest]; [contradiction|].
    fold (position text drug_name).
    destruct (position text drug_name =? -1)%Z eqn:E.
    { apply Z.eqb_eq in E. contradiction. }
    pose proof (closest_fold_inv text drug_name (first :: rest) []
                  (EmptyString, None)) as H.
    simpl app in H.
    assert (H0 : closest_inv text drug_name [] (EmptyString, None)).
    { split; [reflexivity | intros c' []]. }
    specialize (H H0). unfold closest_inv in H.
    remember (fold_left (closest_step text (position text drug_name))
                (first :: rest) (EmptyString, None)) as st eqn:Est.
    clear Est. destruct st as [best [m|]]; simpl in H |- *.
    + destruct H as (before & after & Hs & Ho & Hm & Hb & Ha).
      exists before, after. subst m. repeat split; auto.
    + destruct H as [_ Hnone]. exfalso. exact (Hnone c Hin Hc).
Qed.

(** In "Aspirin 100mg daily, Warfarin 5mg" the dosage bound to
    "Warfarin" is the nearest one that occurs. *)
Lemma find_closest_match_binds_nearest_witness :
  let text := "Aspirin 100mg daily, Warfarin 5mg" in
  let candidates := ["100mg"; "5mg"] in
  let r := _find_closest_match "Warfarin" candidates text in
  occurs text "Warfarin" /\
  (exists c, In c candidates /\ occurs text c) /\
  exists before after,
    candidates = (before ++ r :: after)%list /\
    occurs text r /\
    (forall c, In c before -> occurs text c ->
               (distance text "Warfarin" r < distance text "Warfarin" c)%Z) /\
    (forall c, In c after -> occurs text c ->
               (distance text "Warfarin" r <= distance text "Warfarin" c)%Z).
Proof.
  intros text candidates r.
  assert (Hd : occurs text "Warfarin") by discriminate.
  assert (Hc : exists c, In c candidates /\ occurs text c).
  { exists "5mg". split; [simpl; tauto | discriminate]. }
  split; [exact Hd|]. split; [exact Hc|].
  exact (proj2 (proj2 (proj2
           (find_closest_match_binds_nearest "Warfarin" candidates text)))
           Hd Hc).
Defined.

Example find_closest_match_nearest_dosage :
  _find_closest_match "Warfarin" ["100mg"; "5mg"]
    "Aspirin 100mg daily, Warfarin 5mg" = "5mg" /\
  _find_closest_match "Aspirin" ["100mg"; "5mg"]
    "Aspirin 100mg daily, Warfarin 5mg" = "100mg" /\
  _find_closest_match "Ibuprofen" ["100mg"; "5mg"]
    "Aspirin 100mg daily, Warfarin 5mg" = "100mg" /\
  _find_closest_match "Aspirin" [] "Aspirin 100mg" = EmptyString.
Proof. repeat split. Qed.

(** C8, on the code.  The binder does not know where a candidate was
    matched: it looks the text of each candidate up again and measures
    from its first occurrence.  In "Aspirin 5mg; Ibuprofen 400mg twice
    daily with food; Warfarin 5mg" the dosage spans stand at 8, 23 and
    61 and "Warfarin" at 52: the candidate nearest to it is the "5mg" at
    61, which is what the binder of the specification returns, while
    [_find_closest_match] measures "5mg" from 8 and returns "400mg", and
    the fused entity for Warfarin carries that dosage. *)
Theorem binder_measures_from_first_occurrence :
  let text := BinderSpec.repeated_dosage_text in
  let spans := BinderSpec.repeated_dosage_spans in
  let dosages := map BinderSpec.ac_text spans in
  forallb (BinderSpec.stands_at text) spans = true /\
  position text "Warfarin" = 52%Z /\
  BinderSpec.spec_closest_match 52 spans = "5mg" /\
  position text "5mg" = 8%Z /\
  _find_closest_match "Warfarin" dosages text = "400mg" /\
  map (fun e => (de_name e, de_dosage e))
      (_combine_drug_extractions
         [pattern_result BinderSpec.repeated_dosage_names dosages] text)
  = [("Aspirin", "5mg"); ("Ibuprofen", "5mg"); ("Warfarin", "400mg")].
Proof. intros text spans dosages. repeat split; reflexivity. Qed.

End NearestCandidate.

(** ** Entity fusion *)

Section Fusion.

Import MedicalNLPExtractor.

Lemma Qltb_lt (a b : Q) : Qltb a b = true <-> (a < b)%Q.
Proof.
  unfold Qltb. rewrite negb_true_iff. split.
  - intros H. apply Qnot_le_lt. intros Hle.
    apply Qle_bool_iff in Hle. congruence.
  - intros H. destruct (Qle_bool b a) eqn:E; [|reflexivity].
    apply Qle_bool_iff in E. exfalso. exact (Qlt_not_le _ _ H E).
Qed.

Lemma Qltb_ge (a b : Q) : Qltb a b = false <-> (b <= a)%Q.
Proof.
  unfold Qltb. rewrite negb_false_iff. apply Qle_bool_iff.
Qed.

(** *** The dict operations *)

Lemma dict_get_none (d : AllDrugs) (key : string) :
  dict_get d key = None <-> ~ In key (map fst d).
Proof.
  induction d as [|[k v] d IH]; simpl.
  - tauto.
  - destruct (k =? key) eqn:E.
    + apply String.eqb_eq in E. split; [discriminate | tauto].
    + apply String.eqb_neq in E. rewrite IH. tauto.
Qed.

Lemma dict_get_in (d : AllDrugs) (key : string) (e : Entry) :
  dict_get d key = Some e -> In (key, e) d.
Proof.
  induction d as [|[k v] d IH]; simpl; [discriminate|].
  destruct (k =? key) eqn:E.
  - apply String.eqb_eq in E. intros H. inversion H; subst. left. reflexivity.
  - intros H. right. apply IH. exact H.
Qed.

Lemma dict_set_keys (d : AllDrugs) (key : string) (e : Entry) :
  NoDup (map fst d) -> NoDup (map fst (dict_set d key e)).
Proof.
  induction d as [|[k v] d IH]; simpl; intros H.
  - constructor; [intros [] | constructor].
  - destruct (k =? key) eqn:E; simpl; [exact H|].
    apply String.eqb_neq in E. inversion H as [|? ? Hk Hd]; subst.
    constructor; [|apply IH; exact Hd].
    intros Hin. apply Hk. clear IH H Hk Hd.
    induction d as [|[k' v'] d IH]; simpl in *.
    + destruct Hin as [->|[]]. contradiction.
    + destruct (k' =? key) eqn:E'; simpl in *; [exact Hin|].
      destruct Hin as [->|Hin];
        [left; reflexivity | right; apply IH; exact Hin].
Qed.

Lemma dict_set_in (d : AllDrugs) (key : string) (e : Entry)
  (k' : string) (e' : Entry) :
  NoDup (map fst d) ->
  In (k', e') (dict_set d key e) ->
  (k' = key /\ e' = e) \/ (k' <> key /\ In (k', e') d).
Proof.
  induction d as [|[k v] d IH]; simpl; intros Hnd Hin.
  - destruct Hin as [H|[]]. inversion H; subst. left. split; reflexivity.
  - inversion Hnd as [|? ? Hk Hd]; subst.
    destruct (k =? key) eqn:E.
    + apply String.eqb_eq in E. subst k.
      destruct Hin as [H|Hin].
      * inversion H; subst. left. split; reflexivity.
      * right. split; [|right; exact Hin].
        intros ->. apply Hk. apply (in_map fst) in Hin. exact Hin.
    + apply String.eqb_neq in E.
      destruct Hin as [H|Hin].
      * inversion H; subst. right. split; [exact E | left; reflexivity].
      * destruct (IH Hd Hin) as [Hl|[Hne Hr]]; [left; exact Hl|].
        right. split; [exact Hne | right; exact Hr].
Qed.

Lemma dict_set_has (d : AllDrugs) (key : string) (e : Entry) :
  In (key, e) (dict_set d key e).
Proof.
  induction d as [|[k v] d IH]; simpl; [left; reflexivity|].
  destruct (k =? key) eqn:E.
  - apply String.eqb_eq in E. subst k. left. reflexivity.
  - right. exact IH.
Qed.

Lemma dict_set_keeps (d : AllDrugs) (key : string) (e : Entry)
  (k' : string) (e' : Entry) :
  k' <> key -> In (k', e') d -> In (k', e') (dict_set d key e).
Proof.
  intros Hne. induction d as [|[k v] d IH]; simpl; [tauto|].
  intros [H|Hin].
  - inversion H; subst. destruct (k' =? key) eqn:E.
    + apply String.eqb_eq in E. contradiction.
    + left. reflexivity.
  - destruct (k =? key); right; [exact Hin | apply IH; exact Hin].
Qed.

Lemma dict_key_unique (d : AllDrugs) (key : string) (e1 e2 : Entry) :
  NoDup (map fst d) -> In (key, e1) d -> In (key, e2) d -> e1 = e2.
Proof.
  induction d as [|[k v] d IH]; simpl; intros Hnd H1 H2; [contradiction|].
  inversion Hnd as [|? ? Hk Hd]; subst.
  destruct H1 as [H1|H1]; destruct H2 as [H2|H2].
  - congruence.
  - inversion H1; subst. exfalso. apply Hk.
    apply (in_map fst) in H2. exact H2.
  - inversion H2; subst. exfalso. apply Hk.
    apply (in_map fst) in H1. exact H1.
  - apply IH; assumption.
Qed.

(** *** The first loop, as a fold over the detections *)

Lemma collect_detections (all_drugs : AllDrugs) (result : ExtractionResult) :
  collect all_drugs result =
  fold_left record_detection (detections_of result) all_drugs.
Proof.
  unfold collect, detections_of.
  destruct (drugs result) as [ds|].
  - revert all_drugs. induction ds as [|x ds IH]; intros all_drugs;
      [reflexivity|].
    cbn [fold_left map filter].
    destruct (PyStr.truthy (item_name x)
              && (2 <? String.length (item_name x))%nat);
      cbn [fold_left map]; apply IH.
  - destruct (drug_candidates result) as [cs|].
    + revert all_drugs. induction cs as [|x cs IH]; intros all_drugs;
        [reflexivity|].
      cbn [fold_left map]. apply IH.
    + destruct (results result) as [data|]; [|reflexivity].
      revert all_drugs.
      induction (or_empty (pd_drugs data)) as [|x cs IH]; intros all_drugs;
        [reflexivity|].
      cbn [fold_left map]. apply IH.
Qed.

Lemma all_drugs_detections (the_results : list ExtractionResult) :
  all_drugs_of the_results =
  fold_left record_detection (detections the_results) [].
Proof.
  unfold all_drugs_of, detections. generalize (@nil (string * Entry)).
  induction the_results as [|r rs IH]; intros acc; [reflexivity|].
  cbn [fold_left flat_map]. rewrite fold_left_app, IH, collect_detections.
  reflexivity.
Qed.

(** *** Winners *)

Lemma wins_bound (d0 : Detection) (ds : list Detection) :
  wins d0 ds ->
  forall d', In d' ds -> d_key d' = d_key d0 ->
             (d_confidence d' <= d_confidence d0)%Q.
Proof.
  intros (before & after & -> & Hb & Ha) d' Hin Hk.
  apply in_app_or in Hin. destruct Hin as [Hin|[<-|Hin]].
  - apply Qlt_le_weak. apply Hb; assumption.
  - apply Qle_refl.
  - apply Ha; assumption.
Qed.

Lemma wins_snoc (d0 d : Detection) (ds : list Detection) :
  wins d0 ds ->
  (d_key d = d_key d0 -> (d_confidence d <= d_confidence d0)%Q) ->
  wins d0 (ds ++ [d]).
Proof.
  intros (before & after & -> & Hb & Ha) Hd.
  exists before, (after ++ [d])%list. rewrite <- app_assoc. simpl.
  repeat split; auto.
  intros d' Hin Hk. apply in_app_or in Hin. destruct Hin as [Hin|[<-|[]]].
  - apply Ha; assumption.
  - apply Hd. exact Hk.
Qed.

Lemma wins_last (d : Detection) (ds : list Detection) :
  (forall d', In d' ds -> d_key d' = d_key d ->
              (d_confidence d' < d_confidence d)%Q) ->
  wins d (ds ++ [d]).
Proof.
  intros H. exists ds, []. repeat split; auto. intros d' [].
Qed.

(** *** The loop invariant *)

Lemma record_detection_inv (ds : list Detection) (all_drugs : AllDrugs)
  (d : Detection) :
  fused_inv ds all_drugs ->
  fused_inv (ds ++ [d]) (record_detection all_drugs d).
Proof.
  intros (Hnd & Hent & Hkeys).
  unfold record_detection, record_mention. fold (d_key d). fold (entry_of d).
  destruct (dict_get all_drugs (d_key d)) as [stored|] eqn:G.
  - (* the key is there *)
    apply dict_get_in in G.
    destruct (Hent _ _ G) as (d0 & Hk0 & -> & Hw0).
    change (e_confidence (entry_of d0)) with (d_confidence d0).
    destruct (Qltb (d_confidence d0) (d_confidence d)) eqn:L.
    + (* strictly better: stored *)
      apply Qltb_lt in L. split; [|split].
      * apply dict_set_keys. exact Hnd.
      * intros k e Hin. apply dict_set_in in Hin; [|exact Hnd].
        destruct Hin as [[-> ->]|[Hne Hin]].
        -- exists d. split; [reflexivity|]. split; [reflexivity|].
           apply wins_last. intros d' Hin' Hk'.
           apply Qle_lt_trans with (d_confidence d0); [|exact L].
           apply (wins_bound d0 ds Hw0 d' Hin'). congruence.
        -- destruct (Hent _ _ Hin) as (d1 & Hk1 & -> & Hw1).
           exists d1. split; [exact Hk1|]. split; [reflexivity|].
           apply wins_snoc; [exact Hw1|]. intros Hk. congruence.
      * intros d' Hin. apply in_app_or in Hin.
        destruct Hin as [Hin|[<-|[]]].
        -- specialize (Hkeys d' Hin). apply in_map_iff in Hkeys.
           destruct Hkeys as [[k e] [Hk Hin']]. simpl in Hk. subst k.
           destruct (string_dec (d_key d') (d_key d)) as [Heq|Hne].
           ++ rewrite Heq. apply (in_map fst _ (d_key d, entry_of d)).
              apply dict_set_has.
           ++ apply (in_map fst _ (d_key d', e)).
              apply dict_set_keeps; assumption.
        -- apply (in_map fst _ (d_key d, entry_of d)). apply dict_set_has.
    + (* not better: kept *)
      apply Qltb_ge in L. split; [exact Hnd|]. split.
      * intros k e Hin.
        destruct (Hent _ _ Hin) as (d1 & Hk1 & -> & Hw1).
        exists d1. split; [exact Hk1|]. split; [reflexivity|].
        apply wins_snoc; [exact Hw1|]. intros Hk.
        assert (Heq : entry_of d1 = entry_of d0).
        { apply (dict_key_unique all_drugs (d_key d)); [exact Hnd| |exact G].
          rewrite Hk, Hk1. exact Hin. }
        assert (Hc : d_confidence d1 = d_confidence d0)
          by (change (e_confidence (entry_of d1) = e_confidence (entry_of d0));
              rewrite Heq; reflexivity).
        rewrite Hc. exact L.
      * intros d' Hin. apply in_app_or in Hin.
        destruct Hin as [Hin|[<-|[]]]; [apply Hkeys; exact Hin|].
        apply (in_map fst _ (d_key d, entry_of d0)). exact G.
  - (* a new key *)
    pose proof G as Hnew. apply dict_get_none in Hnew. split; [|split].
    + apply dict_set_keys. exact Hnd.
    + intros k e Hin. apply dict_set_in in Hin; [|exact Hnd].
      destruct Hin as [[-> ->]|[Hne Hin]].
      * exists d. split; [reflexivity|]. split; [reflexivity|].
        apply wins_last. intros d' Hin' Hk'.
        exfalso. apply Hnew. rewrite <- Hk'. apply Hkeys. exact Hin'.
      * destruct (Hent _ _ Hin) as (d1 & Hk1 & -> & Hw1).
        exists d1. split; [exact Hk1|]. split; [reflexivity|].
        apply wins_snoc; [exact Hw1|]. intros Hk. congruence.
    + intros d' Hin. apply in_app_or in Hin.
      destruct Hin as [Hin|[<-|[]]].
      * specialize (Hkeys d' Hin). apply in_map_iff in Hkeys.
        destruct Hkeys as [[k e] [Hk Hin']]. simpl in Hk. subst k.
        apply (in_map fst _ (d_key d', e)). apply dict_set_keeps; [|exact Hin'].
        intros Heq. apply Hnew. rewrite <- Heq.
        apply (in_map fst) in Hin'. exact Hin'.
      * apply (in_map fst _ (d_key d, entry_of d)). apply dict_set_has.
Qed.

Lemma fold_detections_inv (l seen : list Detection) (all_drugs : AllDrugs) :
  fused_inv seen all_drugs ->
  fused_inv (seen ++ l) (fold_left record_detection l all_drugs).
Proof.
  revert seen all_drugs. induction l as [|d l IH]; intros seen ad H; simpl.
  - rewrite app_nil_r. exact H.
  - replace (seen ++ d :: l)%list with ((seen ++ [d]) ++ l)%list
      by (rewrite <- app_assoc; reflexivity).
    apply IH. apply record_detection_inv. exact H.
Qed.

Lemma all_drugs_inv (the_results : list ExtractionResult) :
  fused_inv (detections the_results) (all_drugs_of the_results).
Proof.
  rewrite all_drugs_detections.
  apply (fold_detections_inv (detections the_results) [] []).
  split; [constructor|]. split; [intros k e [] | intros d []].
Qed.

Lemma dict_get_set (d : AllDrugs) (key : string) (e : Entry) :
  dict_get (dict_set d key e) key = Some e.
Proof.
  induction d as [|[k v] d IH]; simpl.
  - rewrite String.eqb_refl. reflexivity.
  - destruct (k =? key) eqn:E; simpl; rewrite E; [reflexivity | exact IH].
Qed.

(** C2.  For every list of extraction results: a mention whose key is
    already stored replaces the stored one when its confidence is strictly
    greater and leaves it alone otherwise (so on a tie the earlier one
    stays); hence every fused entity carries the name and confidence of
    the winner of its key, a detection that no earlier one of that key
    reaches and no later one exceeds; every key met yields an entity; and
    no two entities share a key. *)
Theorem fusion_keeps_highest_confidence :
  forall (the_results : list ExtractionResult) (text : string),
    let fused := _combine_drug_extractions the_results text in
    let seen := detections the_results in
    (forall all_drugs the_method c name stored,
        dict_get all_drugs (name_key name) = Some stored ->
        ((e_confidence stored < c)%Q ->
         dict_get (record_mention the_method c all_drugs name) (name_key name)
         = Some (mkEntry name c the_method)) /\
        ((c <= e_confidence stored)%Q ->
         record_mention the_method c all_drugs name = all_drugs)) /\
    (forall e, In e fused ->
               exists d, de_name e = d_name d /\
                         de_confidence e = d_confidence d /\
                         wins d seen) /\
    (forall d, In d seen ->
               exists e, In e fused /\ name_key (de_name e) = d_key d) /\
    NoDup (map (fun e => name_key (de_name e)) fused).
Proof.
  intros rs text fused seen.
  destruct (all_drugs_inv rs) as (Hnd & Hent & Hkeys).
  split; [|split; [|split]].
  - intros ad m c name stored G. unfold record_mention. rewrite G. split.
    + intros L. apply Qltb_lt in L. rewrite L. apply dict_get_set.
    + intros L. apply Qltb_ge in L. rewrite L. reflexivity.
  - intros e Hin. unfold fused, _combine_drug_extractions in Hin.
    apply in_map_iff in Hin. destruct Hin as [[k en] [<- Hin]].
    destruct (Hent _ _ Hin) as (d & _ & -> & Hw).
    exists d. repeat split. exact Hw.
  - intros d Hin. specialize (Hkeys d Hin). apply in_map_iff in Hkeys.
    destruct Hkeys as [[k en] [Hk Hin']]. simpl in Hk. subst k.
    exists (entity_of (pattern_data_of rs) text en). split.
    + unfold fused, _combine_drug_extractions.
      apply (in_map (fun kv => entity_of (pattern_data_of rs) text (snd kv))
               _ (d_key d, en)). exact Hin'.
    + destruct (Hent _ _ Hin') as (d0 & Hk0 & -> & _). exact Hk0.
  - unfold fused, _combine_drug_extractions. rewrite map_map.
    rewrite (map_ext_in _ fst); [exact Hnd|].
    intros [k en] Hin. simpl.
    destruct (Hent _ _ Hin) as (d0 & Hk0 & -> & _). exact Hk0.
Qed.

(** BioBERT reports "Aspirin" at 0.5 and the drug NER "ASPIRIN" at 0.9:
    the fused entity is the later, more confident one. *)
Lemma fusion_keeps_highest_confidence_witness :
  let the_results :=
    [biobert_result ["Aspirin"] (5 # 10); ner_result ["ASPIRIN"] (9 # 10)] in
  let e :=
    mkDrugEntity "ASPIRIN" EmptyString EmptyString EmptyString EmptyString
      EmptyString (9 # 10) in
  In e (_combine_drug_extractions the_results EmptyString) /\
  exists d, de_name e = d_name d /\
            de_confidence e = d_confidence d /\
            wins d (detections the_results).
Proof.
  intros the_results e.
  assert (Hin : In e (_combine_drug_extractions the_results EmptyString))
    by (left; reflexivity).
  split; [exact Hin|].
  exact (proj1 (proj2 (fusion_keeps_highest_confidence the_results EmptyString))
           e Hin).
Defined.

(** The two runs the specification names: on a tie the first mention
    stays, a strictly more confident later mention takes over. *)
Example fusion_tie_and_takeover :
  map (fun e => (de_name e, de_confidence e))
      (_combine_drug_extractions
         [biobert_result ["Aspirin"] (6 # 10); pattern_result ["aspirin"] []]
         EmptyString)
  = [("Aspirin", 6 # 10)] /\
  map (fun e => (de_name e, de_confidence e))
      (_combine_drug_extractions
         [biobert_result ["Aspirin"] (5 # 10); ner_result ["ASPIRIN"] (9 # 10)]
         EmptyString)
  = [("ASPIRIN", 9 # 10)].
Proof. split; reflexivity. Qed.

(** C7, on the code.  The length test sits in the 'drugs' branch only: a
    two-letter mention is dropped there, and becomes a fused entity when
    it comes through 'drug_candidates' or through the pattern 'results'. *)
Theorem short_mention_is_fused_outside_drugs_branch :
  (String.length "Ab" <= 2)%nat /\
  _combine_drug_extractions [ner_result ["Ab"] (85 # 100)] "Ab 5mg" = [] /\
  map de_name
      (_combine_drug_extractions [biobert_result ["Ab"] (7 # 10)] "Ab 5mg")
  = ["Ab"] /\
  map de_name
      (_combine_drug_extractions [pattern_result ["Ab"] ["5mg"]] "Ab 5mg")
  = ["Ab"].
Proof. repeat split. simpl. lia. Qed.

End Fusion.

(** ** The acquisition cascade *)

Section Cascade.

Import Calls OCRReader.

Lemma ocr_Qltb_lt (a b : Q) : OCRReader.Qltb a b = true <-> (a < b)%Q.
Proof.
  unfold OCRReader.Qltb. rewrite negb_true_iff. split.
  - intros H. apply Qnot_le_lt. intros Hle.
    apply Qle_bool_iff in Hle. congruence.
  - intros H. destruct (Qle_bool b a) eqn:E; [|reflexivity].
    apply Qle_bool_iff in E. exfalso. exact (Qlt_not_le _ _ H E).
Qed.

Lemma ocr_Qltb_ge (a b : Q) : OCRReader.Qltb a b = false <-> (b <= a)%Q.
Proof.
  unfold OCRReader.Qltb. rewrite negb_false_iff. apply Qle_bool_iff.
Qed.

Lemma clears_some (bar : Q) (result : option OCRResult) (r : OCRResult) :
  result = Some r -> (bar < confidence r)%Q -> clears bar result = Some r.
Proof.
  intros -> H. unfold clears. apply ocr_Qltb_lt in H. rewrite H. reflexivity.
Qed.

Lemma clears_none (bar : Q) (result : option OCRResult) :
  stays_below bar result -> clears bar result = None.
Proof.
  unfold stays_below, clears. intros H. destruct result as [r|]; [|reflexivity].
  specialize (H r eq_refl). apply ocr_Qltb_ge in H. rewrite H. reflexivity.
Qed.

(** [max] returns an element of the pool that no other one exceeds. *)
Lemma max_by_confidence_best (first : OCRResult) (rest : list OCRResult) :
  In (max_by_confidence first rest) (first :: rest) /\
  forall x, In x (first :: rest) ->
            (confidence x <= confidence (max_by_confidence first rest))%Q.
Proof.
  unfold max_by_confidence. revert first.
  induction rest as [|y rest IH]; intros first; simpl.
  - split; [left; reflexivity|]. intros x [<-|[]]. apply Qle_refl.
  - destruct (OCRReader.Qltb (confidence first) (confidence y)) eqn:E.
    + apply ocr_Qltb_lt in E. destruct (IH y) as [Hin Hmax]. split.
      * right. exact Hin.
      * intros x [<-|Hx].
        -- apply Qle_trans with (confidence y).
           ++ apply Qlt_le_weak. exact E.
           ++ apply Hmax. left. reflexivity.
        -- apply Hmax. exact Hx.
    + apply ocr_Qltb_ge in E. destruct (IH first) as [Hin Hmax]. split.
      * destruct Hin as [Hin|Hin]; [left; exact Hin | right; right; exact Hin].
      * intros x [<-|[<-|Hx]].
        -- apply Hmax. left. reflexivity.
        -- apply Qle_trans with (confidence first); [exact E|].
           apply Hmax. left. reflexivity.
        -- apply Hmax. right. exact Hx.
Qed.

(** C6.  On an image that could be opened, the cascade asks PaddleOCR,
    then IBM Watson, then Tesseract, in that order and never further than
    needed: a PaddleOCR result above 0.6 is returned with no other engine
    invoked (so at 0.9); failing that, any IBM Watson result is returned
    without Tesseract being invoked; failing that, a Tesseract result
    above 0.4 is returned; when none of this happens the most confident
    result of the retained pool is returned; and when the pool is empty
    the call fails.  With PaddleOCR at 0.3, IBM Watson silent and a
    second candidate at 0.5, the result is the one at 0.5. *)
Theorem cascade_short_circuits_or_takes_best :
  forall (Input Picture Bytes : Type) (rd : Reader Input Picture Bytes)
         (image_file : Input) (processed_image : Picture)
         (image_bytes : Bytes),
    prepare rd image_file = inr (processed_image, image_bytes) ->
    let paddle := _extract_with_paddle_ocr rd processed_image in
    let watson := _extract_with_watson rd image_bytes in
    let tesseract := _extract_with_tesseract rd processed_image in
    let pool := retained_pool rd processed_image in
    let run := extract_text_from_image rd image_file in
    (exists later, every_engine = (invoked run ++ later)%list) /\
    (forall r, paddle = Some r -> (paddle_threshold < confidence r)%Q ->
               run = ([PaddleOCR], inr r)) /\
    (forall w, stays_below paddle_threshold paddle -> watson = Some w ->
               run = ([PaddleOCR; IBMWatson], inr w)) /\
    (forall t, stays_below paddle_threshold paddle -> watson = None ->
               tesseract = Some t -> (tesseract_threshold < confidence t)%Q ->
               run = (every_engine, inr t)) /\
    (stays_below paddle_threshold paddle -> watson = None ->
     stays_below tesseract_threshold tesseract -> pool <> [] ->
     exists best,
       run = (every_engine, inr best) /\ In best pool /\
       forall x, In x pool -> (confidence x <= confidence best)%Q) /\
    (stays_below paddle_threshold paddle -> watson = None ->
     stays_below tesseract_threshold tesseract -> pool = [] ->
     run = (every_engine, inl ("OCR extraction failed: " ++ all_failed))) /\
    (let low := mkOCRResult "low" (3 # 10) "PaddleOCR" in
     let mid := mkOCRResult "mid" (5 # 10) "Tesseract" in
     max_by_confidence low [mid] = mid /\
     (paddle = Some low -> watson = None -> tesseract = Some mid ->
      value run = inr mid)).
Proof.
  intros Input Picture Bytes rd image_file pic bytes Hprep
         paddle watson tesseract pool run.
  assert (Hrun : run =
    bind (call PaddleOCR paddle) (fun paddle_result =>
      match clears paddle_threshold paddle_result with
      | Some r => ret (inr r)
      | None =>
          bind (call IBMWatson watson) (fun watson_result =>
            match watson_result with
            | Some w => ret (inr w)
            | None =>
                bind (call Tesseract tesseract) (fun tesseract_result =>
                  match clears tesseract_threshold tesseract_result with
                  | Some t => ret (inr t)
                  | None =>
                      match (pool_of paddle_result
                             ++ pool_of tesseract_result)%list with
                      | first :: rest =>
                          ret (inr (max_by_confidence first rest))
                      | [] =>
                          ret (inl ("OCR extraction failed: " ++ all_failed))
                      end
                  end)
            end)
      end)).
  { unfold run, extract_text_from_image. rewrite Hprep. reflexivity. }
  assert (Hpool : pool = (pool_of paddle ++ pool_of tesseract)%list)
    by reflexivity.
  clearbody run pool paddle watson tesseract. subst run.
  unfold bind, call, ret, invoked, value, every_engine.
  repeat split.
  - destruct (clears paddle_threshold paddle); simpl.
    + exists [IBMWatson; Tesseract]. reflexivity.
    + destruct watson; simpl.
      * exists [Tesseract]. reflexivity.
      * destruct (clears tesseract_threshold tesseract); simpl;
          [exists []; reflexivity|].
        destruct (pool_of paddle ++ pool_of tesseract)%list; simpl;
          exists []; reflexivity.
  - intros r Hp Hc. rewrite (clears_some _ _ _ Hp Hc). reflexivity.
  - intros w Hp Hw. rewrite (clears_none _ _ Hp), Hw. reflexivity.
  - intros t Hp Hw Ht Hc.
    rewrite (clears_none _ _ Hp), Hw, (clears_some _ _ _ Ht Hc). reflexivity.
  - intros Hp Hw Ht Hne.
    rewrite (clears_none _ _ Hp), Hw, (clears_none _ _ Ht), <- Hpool.
    destruct pool as [|first rest]; [contradiction|].
    exists (max_by_confidence first rest). simpl.
    destruct (max_by_confidence_best first rest) as [Hin Hmax].
    split; [reflexivity|]. split; [exact Hin | exact Hmax].
  - intros Hp Hw Ht He.
    rewrite (clears_none _ _ Hp), Hw, (clears_none _ _ Ht), <- Hpool, He.
    reflexivity.
  - intros Hp Hw Ht. rewrite Hp, Hw, Ht. reflexivity.
Qed.

(** PaddleOCR at 0.9 clears its bar of 0.6: its result comes back and no
    other engine has been invoked. *)
Lemma cascade_short_circuits_or_takes_best_witness :
  let rd := sample_reader (Some (9 # 10)) (Some (8 # 10)) (Some (5 # 10)) in
  prepare rd 0%nat = inr (0%nat, 0%nat) /\
  extract_text_from_image rd 0%nat
  = ([PaddleOCR], inr (mkOCRResult "read by PaddleOCR" (9 # 10) "PaddleOCR")).
Proof.
  intros rd. split; [reflexivity|].
  apply (proj1 (proj2
           (cascade_short_circuits_or_takes_best nat nat nat rd 0%nat 0%nat
              0%nat eq_refl))).
  - reflexivity.
  - reflexivity.
Defined.

(** Runs of the cascade on the sample readers. *)
Example cascade_runs :
  extract_text_from_image
    (sample_reader (Some (3 # 10)) None (Some (5 # 10))) 0%nat
  = (every_engine, inr (mkOCRResult "read by Tesseract" (5 # 10) "Tesseract"))
  /\
  extract_text_from_image
    (sample_reader (Some (3 # 10)) None (Some (35 # 100))) 0%nat
  = (every_engine, inr (mkOCRResult "read by Tesseract" (35 # 100) "Tesseract"))
  /\
  extract_text_from_image
    (sample_reader (Some (3 # 10)) None (Some (3 # 10))) 0%nat
  = (every_engine, inr (mkOCRResult "read by PaddleOCR" (3 # 10) "PaddleOCR"))
  /\
  extract_text_from_image
    (sample_reader (Some (5 # 10)) (Some (3 # 10)) None) 0%nat
  = ([PaddleOCR; IBMWatson],
     inr (mkOCRResult "read by IBM Watson" (3 # 10) "IBM Watson"))
  /\
  extract_text_from_image (sample_reader None None None) 0%nat
  = (every_engine, inl ("OCR extraction failed: " ++ all_failed)).
Proof. repeat split. Qed.

End Cascade.

(** ** The two endpoints when no drug is recognised *)

Section Endpoints.

Import DatasetLoader Main.

Lemma image_prefix_truthy (ct : string) :
  prefix "image/" ct = true -> PyStr.truthy ct = true.
Proof. destruct ct; [discriminate | reflexivity]. Qed.

Lemma long_text_truthy (text : string) :
  (10 <= String.length (PyStr.strip text))%nat -> PyStr.truthy text = true.
Proof. destruct text; simpl; [lia | reflexivity]. Qed.

(** C9, on the code.  When the extractor finds no drug, the image endpoint
    answers 400 with its "No drugs found" message, and the text endpoint,
    whose only handler catches the 400 it has just raised, answers 500
    "Analysis failed: ...". *)
Theorem no_drugs_found_status :
  forall (svc : Services),
    (forall request found,
        extract_drugs svc (prescription_text request) = inr found ->
        drugs_or_empty found = [] ->
        analyze_prescription svc request
        = inl (HTTPException 500
                 ("Analysis failed: "
                  ++ exc_str svc
                       (HTTPException 400
                          "No drugs found in prescription text")))) /\
    (forall the_age image ct path text found,
        content_type image = Some ct -> prefix "image/" ct = true ->
        save_upload svc image = inr path ->
        extract_text_from_image svc path = inr text ->
        (10 <= String.length (PyStr.strip text))%nat ->
        extract_drugs svc text = inr found ->
        drugs_or_empty found = [] ->
        analyze_prescription_image svc the_age image
        = inl (HTTPException 400 no_drugs_in_image)).
Proof.
  intros svc. split.
  - intros request found He Hd.
    unfold analyze_prescription, analyze_prescription_body, bind.
    rewrite He, Hd. reflexivity.
  - intros the_age image ct path text found Hct Hp Hs Ht Hl He Hd.
    unfold analyze_prescription_image, analyze_prescription_image_body, bind.
    rewrite Hct, (image_prefix_truthy ct Hp), Hp. cbn [negb orb].
    rewrite Hs, Ht, (long_text_truthy text Hl). cbn [negb orb].
    apply Nat.ltb_ge in Hl. rewrite Hl, He, Hd. reflexivity.
Qed.

(** The text "hello" holds no drug: the text endpoint answers 500. *)
Lemma no_drugs_found_status_witness :
  extract_drugs sample_services (prescription_text sample_request)
  = inr (Some []) /\
  status_of (analyze_prescription sample_services sample_request) = 500%nat /\
  status_of (analyze_prescription_image sample_services 30 sample_image)
  = 400%nat.
Proof.
  split; [reflexivity|]. split.
  - rewrite (proj1 (no_drugs_found_status sample_services)
               sample_request (Some []) eq_refl eq_refl).
    reflexivity.
  - rewrite (proj2 (no_drugs_found_status sample_services)
               30%Z sample_image "image/png" "/tmp/upload.png"
               "hello world, nothing to see here" (Some [])
               eq_refl eq_refl eq_refl eq_refl).
    + reflexivity.
    + simpl. lia.
    + reflexivity.
    + reflexivity.
Defined.

End Endpoints.

(** ** The public extraction entry point *)

Section EntryPoint.

Import Calls NLPExtractor.

Lemma rstrip_blank (s : string) :
  only_whitespace s = true -> PyStr.rstrip s = EmptyString.
Proof.
  induction s as [|c s IH]; simpl; [reflexivity|].
  intros H. apply andb_true_iff in H. destruct H as [Hc Hs].
  rewrite (IH Hs), Hc. reflexivity.
Qed.

Lemma strip_blank (s : string) :
  only_whitespace s = true -> PyStr.strip s = EmptyString.
Proof.
  intros H. unfold PyStr.strip. rewrite (rstrip_blank s H). reflexivity.
Qed.

Lemma lstrip_empty (s : string) :
  PyStr.lstrip s = EmptyString -> only_whitespace s = true.
Proof.
  induction s as [|c s IH]; simpl; [reflexivity|].
  destruct (PyStr.is_space c); [exact IH | discriminate].
Qed.

Lemma rstrip_keeps_blank (s : string) :
  only_whitespace (PyStr.rstrip s) = true -> only_whitespace s = true.
Proof.
  induction s as [|c s IH]; simpl; [reflexivity|].
  destruct (PyStr.rstrip s) as [|c' r] eqn:E.
  - destruct (PyStr.is_space c) eqn:Hc; simpl.
    + intros _. apply IH. reflexivity.
    + rewrite Hc. discriminate.
  - cbn [only_whitespace]. intros H. apply andb_true_iff in H.
    destruct H as [Hc Hr]. rewrite Hc. apply IH. exact Hr.
Qed.

(** The guard of [extract_drug_info] fires exactly on blank text. *)
Lemma guard_is_blank (s : string) :
  negb (PyStr.truthy s) || negb (PyStr.truthy (PyStr.strip s)) = true
  <-> only_whitespace s = true.
Proof.
  split.
  - intros H. apply orb_true_iff in H. destruct H as [H|H].
    + destruct s; [reflexivity | discriminate].
    + apply rstrip_keeps_blank. apply lstrip_empty.
      fold (PyStr.strip s).
      destruct (PyStr.strip s); [reflexivity | discriminate].
  - intros H. rewrite (strip_blank s H). apply orb_true_r.
Qed.

(** C10.  On a text that is empty or made of whitespace only,
    [extract_drug_info] returns the empty list and invokes neither the
    model query nor the rule-based fallback, whatever these would have
    answered. *)
Theorem blank_text_extracts_nothing :
  forall (query_gatortron : string -> ModelAnswer)
         (_rule_based_extraction : string -> list DrugRecord)
         (medical_text : string),
    only_whitespace medical_text = true ->
    extract_drug_info query_gatortron _rule_based_extraction medical_text
    = ([], []).
Proof.
  intros q rb text H. unfold extract_drug_info.
  apply guard_is_blank in H. rewrite H. reflexivity.
Qed.

(** Three spaces, with a model that would have named a drug. *)
Lemma blank_text_extracts_nothing_witness :
  let query := fun _ : string =>
    mkModelAnswer false
      (Some [ItemDict (Some "aspirin") None None None None]) in
  let fallback := fun _ : string =>
    [mkDrugRecord "aspirin" EmptyString EmptyString EmptyString] in
  only_whitespace "   " = true /\
  extract_drug_info query fallback "   " = ([], []) /\
  extract_drug_info query fallback EmptyString = ([], []).
Proof.
  intros query fallback. split; [reflexivity|]. split.
  - apply (blank_text_extracts_nothing query fallback "   "). reflexivity.
  - apply (blank_text_extracts_nothing query fallback EmptyString). reflexivity.
Defined.

(** On any other text the model is queried first. *)
Example entry_point_runs :
  extract_drug_info
    (fun _ => mkModelAnswer false
                (Some [ItemDict (Some "aspirin") None (Some "81mg") None None]))
    (fun _ => []) "Aspirin 81mg"
  = ([QueryGatortron],
     [mkDrugRecord "aspirin" "81mg" EmptyString EmptyString]) /\
  extract_drug_info
    (fun _ => mkModelAnswer true None)
    (fun _ => [mkDrugRecord "Aspirin" "81mg" EmptyString EmptyString])
    "Aspirin 81mg"
  = ([QueryGatortron; RuleBasedExtraction],
     [mkDrugRecord "Aspirin" "81mg" EmptyString EmptyString]).
Proof. split; reflexivity. Qed.

End EntryPoint.

(** ** Letter case and whitespace *)

Section LetterCase.

Lemma is_space_lower_char (c : ascii) :
  PyStr.is_space (PyStr.lower_char c) = PyStr.is_space c.
Proof. destruct c as [[] [] [] [] [] [] [] []]; reflexivity. Qed.

Lemma blank_lower (s : string) :
  NLPExtractor.only_whitespace (PyStr.lower s)
  = NLPExtractor.only_whitespace s.
Proof.
  induction s as [|c s IH]; simpl; [reflexivity|].
  rewrite is_space_lower_char, IH. reflexivity.
Qed.

Lemma prefix_empty (s : string) : prefix EmptyString s = true.
Proof. destruct s; reflexivity. Qed.

Lemma contains_empty (s : string) : PyStr.contains EmptyString s = true.
Proof. destruct s; reflexivity. Qed.

End LetterCase.

(** ** More on identity resolution and interaction lookup *)

Section DatasetMore.

Import DatasetLoader.

Lemma fuzzy_lookup_some (m : DrugMapping) (key k id : string) :
  In (k, id) m -> fuzzy_match key k = true ->
  exists id', fuzzy_lookup m key = Some id'.
Proof.
  induction m as [|[k' v] m IH]; simpl; [contradiction|].
  intros [H|H] Hf.
  - inversion H; subst. rewrite Hf. eexists. reflexivity.
  - destruct (fuzzy_match key k'); [eexists; reflexivity|].
    apply IH; assumption.
Qed.

(** Resolution goes through the lower-cased, trimmed name only: two
    names with the same such form resolve to the same identifier as soon
    as some mapped name contains that form or is contained in it; when
    none does, each gets the sentinel made of its own name as given,
    upper-cased and untrimmed. *)
Theorem get_drugbank_id_follows_normalised_name :
  forall (drug_mapping : DrugMapping) (a b : string),
    PyStr.strip (PyStr.lower a) = PyStr.strip (PyStr.lower b) ->
    ((exists k id, In (k, id) drug_mapping /\
                   fuzzy_match (PyStr.strip (PyStr.lower a)) k = true) ->
     get_drugbank_id drug_mapping a = get_drugbank_id drug_mapping b /\
     In (get_drugbank_id drug_mapping a) (map snd drug_mapping)) /\
    ((forall k id, In (k, id) drug_mapping ->
                   fuzzy_match (PyStr.strip (PyStr.lower a)) k = false) ->
     get_drugbank_id drug_mapping a = "DB_UNKNOWN_" ++ PyStr.upper a /\
     get_drugbank_id drug_mapping b = "DB_UNKNOWN_" ++ PyStr.upper b).
Proof.
  intros m a b H. unfold get_drugbank_id. rewrite <- H.
  set (key := PyStr.strip (PyStr.lower a)). split.
  - intros (k & id & Hin & Hf).
    destruct (mapping_get m key) as [id0|] eqn:G.
    + split; [reflexivity|]. clear - G.
      induction m as [|[k' v] m IH]; simpl in *; [discriminate|].
      destruct (k' =? key); [inversion G; left; reflexivity|].
      right. apply IH. exact G.
    + destruct (fuzzy_lookup_some m key k id Hin Hf) as [id' F].
      rewrite F. split; [reflexivity|]. clear - F.
      induction m as [|[k' v] m IH]; simpl in *; [discriminate|].
      destruct (fuzzy_match key k'); [inversion F; left; reflexivity|].
      right. apply IH. exact F.
  - intros Hno.
    rewrite (mapping_get_absent m key (no_fuzzy_no_key m key Hno)).
    rewrite (fuzzy_lookup_none m key Hno). split; reflexivity.
Qed.

Lemma get_drugbank_id_follows_normalised_name_witness :
  PyStr.strip (PyStr.lower " WARFARIN  ")
  = PyStr.strip (PyStr.lower "Warfarin") /\
  get_drugbank_id sample_mapping " WARFARIN  "
  = get_drugbank_id sample_mapping "Warfarin" /\
  In (get_drugbank_id sample_mapping " WARFARIN  ")
     (map snd sample_mapping).
Proof.
  split; [reflexivity|].
  apply (proj1 (get_drugbank_id_follows_normalised_name sample_mapping
                  " WARFARIN  " "Warfarin" eq_refl)).
  exists "warfarin", "DB00682". split; [simpl; tauto | reflexivity].
Defined.

(** A blank drug name is a substring of every mapped name: unless the
    empty string is itself a key, it resolves to the identifier of the
    first entry of the table, and to the sentinel only on an empty
    table. *)
Theorem blank_name_resolves_to_first_entry :
  forall (drug_mapping : DrugMapping) (drug_name : string),
    NLPExtractor.only_whitespace drug_name = true ->
    ~ In EmptyString (map fst drug_mapping) ->
    get_drugbank_id drug_mapping drug_name =
    match drug_mapping with
    | (_, first_id) :: _ => first_id
    | [] => "DB_UNKNOWN_" ++ PyStr.upper drug_name
    end.
Proof.
  intros m name Hb Hk. unfold get_drugbank_id.
  rewrite <- blank_lower in Hb. rewrite (strip_blank _ Hb).
  rewrite (mapping_get_absent m EmptyString Hk).
  destruct m as [|[k v] rest]; [reflexivity|].
  simpl. unfold fuzzy_match. rewrite contains_empty. reflexivity.
Qed.

Lemma blank_name_resolves_to_first_entry_witness :
  NLPExtractor.only_whitespace "  " = true /\
  ~ In EmptyString (map fst sample_mapping) /\
  get_drugbank_id sample_mapping "  " = "DB00945".
Proof.
  assert (Hk : ~ In EmptyString (map fst sample_mapping))
    by (simpl; intuition discriminate).
  split; [reflexivity|]. split; [exact Hk|].
  exact (blank_name_resolves_to_first_entry sample_mapping "  " eq_refl Hk).
Defined.

Lemma filter_none (A : Type) (p : A -> bool) (l : list A) :
  (forall x, In x l -> p x = false) -> filter p l = [].
Proof.
  induction l as [|x l IH]; simpl; intros H; [reflexivity|].
  rewrite (H x (or_introl eq_refl)). apply IH.
  intros y Hy. apply H. right. exact Hy.
Qed.

(** A drug whose identifier stands in no row of a non-empty table has no
    interaction with any drug, in either argument position: the lookup
    answers "None". *)
Theorem unknown_identifier_never_interacts :
  forall (drug_mapping : DrugMapping) (hoddi_data : HoddiData)
         (drug other : string),
    hoddi_data <> [] ->
    (forall row, In row hoddi_data ->
                 drug1_drugbank_id row <> get_drugbank_id drug_mapping drug /\
                 drug2_drugbank_id row <> get_drugbank_id drug_mapping drug) ->
    check_drug_interaction drug_mapping hoddi_data drug other = "None" /\
    check_drug_interaction drug_mapping hoddi_data other drug = "None".
Proof.
  intros m h drug other Hne Hrows. unfold check_drug_interaction.
  destruct h as [|row0 rows]; [contradiction|].
  assert (Hmask : forall x y,
             x = get_drugbank_id m drug \/ y = get_drugbank_id m drug ->
             filter (pair_mask x y) (row0 :: rows) = []).
  { intros x y Hxy. apply filter_none. intros row Hin.
    destruct (Hrows row Hin) as [H1 H2]. unfold pair_mask.
    apply String.eqb_neq in H1. apply String.eqb_neq in H2.
    destruct Hxy as [->| ->]; rewrite ?H1, ?H2;
      rewrite ?andb_false_r, ?andb_false_l; reflexivity. }
  split.
  - rewrite (Hmask _ _ (or_introl eq_refl)). reflexivity.
  - rewrite (Hmask _ _ (or_intror eq_refl)). reflexivity.
Qed.

Lemma unknown_identifier_never_interacts_witness :
  sample_hoddi <> [] /\
  check_drug_interaction sample_mapping sample_hoddi "Xyzzyblorp" "Aspirin"
  = "None" /\
  check_drug_interaction sample_mapping sample_hoddi "Aspirin" "Xyzzyblorp"
  = "None".
Proof.
  assert (Hne : sample_hoddi <> []) by discriminate.
  split; [exact Hne|].
  apply (unknown_identifier_never_interacts sample_mapping sample_hoddi
           "Xyzzyblorp" "Aspirin" Hne).
  intros row Hin. simpl in Hin.
  destruct Hin as [<-|[<-|[]]]; split; discriminate.
Defined.

End DatasetMore.

(** ** The per-drug interaction report *)

Section InteractionReport.

Import DatasetLoader.

Lemma in_enumerate_from (A : Type) (l : list A) (k j : nat) (x : A) :
  In (j, x) (enumerate_from k l) <->
  (k <= j)%nat /\ nth_error l (j - k) = Some x.
Proof.
  revert k. induction l as [|y l IH]; intros k; simpl.
  - split; [contradiction|]. intros [_ H]. destruct (j - k)%nat; discriminate.
  - rewrite IH. split.
    + intros [H|[Hle Hn]].
      * inversion H; subst. split; [lia|]. rewrite Nat.sub_diag. reflexivity.
      * split; [lia|]. replace (j - k)%nat with (S (j - S k)) by lia.
        exact Hn.
    + intros [Hle Hn]. destruct (Nat.eq_dec j k) as [->|Hne].
      * left. rewrite Nat.sub_diag in Hn. simpl in Hn. congruence.
      * right. split; [lia|].
        replace (j - k)%nat with (S (j - S k)) in Hn by lia. exact Hn.
Qed.

Lemma in_enumerate (A : Type) (l : list A) (j : nat) (x : A) :
  In (j, x) (enumerate l) <-> nth_error l j = Some x.
Proof.
  unfold enumerate. rewrite in_enumerate_from, Nat.sub_0_r.
  split; [tauto | intros H; split; [lia | exact H]].
Qed.

Lemma nth_error_enumerate_from (A : Type) (l : list A) (k i : nat) :
  nth_error (enumerate_from k l) i =
  option_map (fun x => ((k + i)%nat, x)) (nth_error l i).
Proof.
  revert k i. induction l as [|y l IH]; intros k [|i]; simpl;
    try reflexivity.
  - rewrite Nat.add_0_r. reflexivity.
  - rewrite IH. rewrite Nat.add_succ_r. reflexivity.
Qed.

Lemma map_snd_enumerate_from (A : Type) (l : list A) (k : nat) :
  map snd (enumerate_from k l) = l.
Proof.
  revert k. induction l as [|y l IH]; intros k; simpl; [reflexivity|].
  rewrite IH. reflexivity.
Qed.

Lemma flat_map_nil (A B : Type) (f : A -> list B) (l : list A) :
  flat_map f l = [] <-> forall x, In x l -> f x = [].
Proof.
  induction l as [|y l IH]; simpl.
  - split; [intros _ x [] | reflexivity].
  - split.
    + intros H. apply app_eq_nil in H. destruct H as [Hy Hl].
      intros x [<-|Hx]; [exact Hy | apply IH; assumption].
    + intros H. rewrite (H y (or_introl eq_refl)). simpl. apply IH.
      intros x Hx. apply H. right. exact Hx.
Qed.

(** What the inner loop of [get_interaction] collects. *)
Lemma in_interactions_of (m : DrugMapping) (h : HoddiData)
  (drugs : list string) (i : nat) (drug text : string) :
  In text (interactions_of m h drugs i drug) <->
  exists j other,
    j <> i /\ nth_error drugs j = Some other /\
    check_drug_interaction m h drug other <> "None" /\
    text = "with " ++ other ++ ": " ++ check_drug_interaction m h drug other.
Proof.
  unfold interactions_of. rewrite in_flat_map. split.
  - intros [[j other] [Hin Ht]]. apply in_enumerate in Hin.
    destruct (Nat.eqb_spec i j) as [->|Hne]; simpl in Ht; [contradiction|].
    destruct (check_drug_interaction m h drug other =? "None") eqn:E;
      simpl in Ht; [contradiction|].
    apply String.eqb_neq in E. destruct Ht as [<-|[]].
    exists j, other. repeat split; auto.
  - intros (j & other & Hne & Hn & Hc & ->).
    exists (j, other). split; [apply in_enumerate; exact Hn|].
    destruct (Nat.eqb_spec i j) as [->|_]; [contradiction|]. simpl.
    apply String.eqb_neq in Hc. rewrite Hc. simpl. left. reflexivity.
Qed.

Lemma join_starts (l : list string) :
  l <> [] ->
  (forall x, In x l -> exists t, x = "with " ++ t) ->
  exists t, PyStr.join "; " l = "with " ++ t.
Proof.
  destruct l as [|x l]; [contradiction|]. intros _ H.
  destruct (H x (or_introl eq_refl)) as [t ->].
  destruct l as [|y l].
  - exists t. reflexivity.
  - exists (t ++ "; " ++ PyStr.join "; " (y :: l)).
    change (PyStr.join "; " (("with " ++ t) :: y :: l))
      with (("with " ++ t) ++ "; " ++ PyStr.join "; " (y :: l)).
    simpl. reflexivity.
Qed.

(** [get_interaction] returns one entry per drug, in order, carrying the
    trimmed name and the resolved identifier; the interaction text of an
    entry is "None" exactly when the lookup answers "None" against every
    other position of the list. *)
Theorem get_interaction_one_entry_per_drug :
  forall (drug_mapping : DrugMapping) (hoddi_data : HoddiData)
         (drugs : list string),
    let report := get_interaction drug_mapping hoddi_data drugs in
    map ir_drug report = map PyStr.strip drugs /\
    map ir_drugbank_id report = map (get_drugbank_id drug_mapping) drugs /\
    (forall i drug r,
        nth_error drugs i = Some drug -> nth_error report i = Some r ->
        (ir_interaction r = "None" <->
         forall j other,
           j <> i -> nth_error drugs j = Some other ->
           check_drug_interaction drug_mapping hoddi_data drug other
           = "None")).
Proof.
  intros m h drugs report. unfold report, get_interaction.
  split; [|split].
  - rewrite map_map.
    rewrite <- (map_snd_enumerate_from _ drugs 0) at 2.
    rewrite map_map. apply map_ext. intros [i d]. reflexivity.
  - rewrite map_map.
    rewrite <- (map_snd_enumerate_from _ drugs 0) at 2.
    rewrite map_map. apply map_ext. intros [i d]. reflexivity.
  - intros i drug r Hd Hr. rewrite nth_error_map in Hr.
    unfold enumerate in Hr. rewrite nth_error_enumerate_from, Hd in Hr.
    simpl in Hr. inversion Hr; subst r; clear Hr. simpl.
    destruct (interactions_of m h drugs i drug) as [|x l] eqn:E.
    + split; [|reflexivity]. intros _ j other Hne Hn.
      destruct (string_dec (check_drug_interaction m h drug other) "None")
        as [Hc|Hc]; [exact Hc|].
      exfalso.
      assert (Hin : In ("with " ++ other ++ ": "
                        ++ check_drug_interaction m h drug other)
                       (interactions_of m h drugs i drug)).
      { apply in_interactions_of. exists j, other. repeat split; auto. }
      rewrite E in Hin. contradiction.
    + split.
      * intros Hj. exfalso.
        destruct (join_starts (x :: l)) as [t Ht]; [discriminate| |].
        -- intros y Hy. rewrite <- E in Hy. apply in_interactions_of in Hy.
           destruct Hy as (j & other & _ & _ & _ & ->).
           eexists. reflexivity.
        -- rewrite Ht in Hj. discriminate.
      * intros Hall. exfalso.
        assert (Hin : In x (interactions_of m h drugs i drug))
          by (rewrite E; left; reflexivity).
        apply in_interactions_of in Hin.
        destruct Hin as (j & other & Hne & Hn & Hc & _).
        exact (Hc (Hall j other Hne Hn)).
Qed.

Lemma get_interaction_one_entry_per_drug_witness :
  let drugs := ["aspirin"; "warfarin"; "amoxicillin"] in
  let report := get_interaction sample_mapping sample_hoddi drugs in
  let r := mkInteractionResult "amoxicillin" "DB01060" "None" in
  nth_error drugs 2 = Some "amoxicillin" /\
  nth_error report 2 = Some r /\
  (ir_interaction r = "None" <->
   forall j other,
     j <> 2%nat -> nth_error drugs j = Some other ->
     check_drug_interaction sample_mapping sample_hoddi "amoxicillin" other
     = "None").
Proof.
  intros drugs report r.
  split; [reflexivity|]. split; [reflexivity|].
  exact (proj2 (proj2 (get_interaction_one_entry_per_drug
                         sample_mapping sample_hoddi drugs))
           2%nat "amoxicillin" r eq_refl eq_refl).
Defined.

(** Reports are mutual: when the lookup for the drugs at two different
    positions answers something other than "None", the entry of each of
    the two names the other with that same answer. *)
Theorem interaction_reports_are_mutual :
  forall (drug_mapping : DrugMapping) (hoddi_data : HoddiData)
         (drugs : list string) (i j : nat) (a b : string),
    i <> j -> nth_error drugs i = Some a -> nth_error drugs j = Some b ->
    check_drug_interaction drug_mapping hoddi_data a b <> "None" ->
    let answer := check_drug_interaction drug_mapping hoddi_data a b in
    In ("with " ++ b ++ ": " ++ answer)
       (interactions_of drug_mapping hoddi_data drugs i a) /\
    In ("with " ++ a ++ ": " ++ answer)
       (interactions_of drug_mapping hoddi_data drugs j b).
Proof.
  intros m h drugs i j a b Hne Ha Hb Hc answer.
  assert (Hsym : check_drug_interaction m h b a = answer).
  { unfold answer, check_drug_interaction.
    destruct h as [|row rows]; [reflexivity|].
    rewrite (filter_ext _ _ (pair_mask_sym (get_drugbank_id m b)
                                           (get_drugbank_id m a))).
    reflexivity. }
  split.
  - apply in_interactions_of. exists j, b.
    repeat split; auto.
  - apply in_interactions_of. exists i, a. rewrite Hsym.
    repeat split; auto.
Qed.

Lemma interaction_reports_are_mutual_witness :
  let drugs := ["aspirin"; "ibuprofen"; "warfarin"] in
  check_drug_interaction sample_mapping sample_hoddi "aspirin" "warfarin"
  <> "None" /\
  In "with warfarin: Severe: bleeding risk"
     (interactions_of sample_mapping sample_hoddi drugs 0 "aspirin") /\
  In "with aspirin: Severe: bleeding risk"
     (interactions_of sample_mapping sample_hoddi drugs 2 "warfarin").
Proof.
  intros drugs.
  assert (Hc : check_drug_interaction sample_mapping sample_hoddi
                 "aspirin" "warfarin" <> "None") by discriminate.
  split; [exact Hc|].
  apply (interaction_reports_are_mutual sample_mapping sample_hoddi drugs
           0 2 "aspirin" "warfarin"); [discriminate | reflexivity
                                        | reflexivity | exact Hc].
Defined.

End InteractionReport.

(** ** Dosage rules, alternatives and the overall risk *)

Section DosageRules.

Import DatasetLoader Main Handlers.

Lemma in_firstn (A : Type) (n : nat) (l : list A) (x : A) :
  In x (firstn n l) -> In x l.
Proof.
  revert l. induction n as [|n IH]; intros [|y l]; simpl; try contradiction.
  intros [H|H]; [left; exact H | right; apply IH; exact H].
Qed.

(** [_suggest_alternatives] never returns more than two suggestions; each
    one stems from an interaction result whose text is not "None" and
    mentions "severe", for a drug of the substitution table, and carries
    the capitalised substitute; the list of drugs passed in plays no
    part; without a "severe" text there is no suggestion. *)
Theorem suggest_alternatives_is_capped :
  forall (drugs : list DrugInfo) (irs : list InteractionResult),
    let alts := _suggest_alternatives drugs irs in
    (List.length alts <= 2)%nat /\
    (forall a, In a alts ->
       exists r alt,
         In r irs /\ ir_interaction r <> "None" /\
         mentions "severe" (ir_interaction r) /\
         mapping_get alternative_map (PyStr.lower (ir_drug r)) = Some alt /\
         a = mkAlternative (ir_drug r) (PyStr.title alt)
               ("Safer alternative due to interaction risk: "
                ++ ir_interaction r)) /\
    (forall drugs', _suggest_alternatives drugs' irs = alts) /\
    ((forall r, In r irs -> ~ mentions "severe" (ir_interaction r)) ->
     alts = []).
Proof.
  intros drugs irs alts. unfold alts, _suggest_alternatives.
  split; [|split; [|split]].
  - apply firstn_le_length.
  - intros a Hin. apply in_firstn in Hin. apply in_flat_map in Hin.
    destruct Hin as [r [Hr Ha]]. unfold mentions.
    destruct (ir_interaction r =? "None") eqn:E;
      [simpl in Ha; contradiction|].
    apply String.eqb_neq in E.
    destruct (PyStr.contains "severe" (PyStr.lower (ir_interaction r))) eqn:S;
      [|simpl in Ha; contradiction].
    destruct (mapping_get alternative_map (PyStr.lower (ir_drug r)))
      as [alt|] eqn:G; [|simpl in Ha; contradiction].
    simpl in Ha. destruct Ha as [<-|[]]. exists r, alt. repeat split; auto.
  - reflexivity.
  - intros Hno. replace (flat_map _ irs) with (@nil Alternative);
      [reflexivity|].
    symmetry. apply flat_map_nil. intros r Hr.
    specialize (Hno r Hr). unfold mentions in Hno.
    destruct (PyStr.contains "severe" (PyStr.lower (ir_interaction r)));
      [exfalso; apply Hno; reflexivity|].
    rewrite andb_false_r. reflexivity.
Qed.

Lemma suggest_alternatives_is_capped_witness :
  let a := mkAlternative "warfarin" "Rivaroxaban"
             ("Safer alternative due to interaction risk: "
              ++ "with aspirin: Severe: bleeding risk") in
  In a (_suggest_alternatives [] sample_interactions) /\
  exists r alt,
    In r sample_interactions /\ ir_interaction r <> "None" /\
    mentions "severe" (ir_interaction r) /\
    mapping_get alternative_map (PyStr.lower (ir_drug r)) = Some alt /\
    a = mkAlternative (ir_drug r) (PyStr.title alt)
          ("Safer alternative due to interaction risk: "
           ++ ir_interaction r).
Proof.
  intros a.
  assert (Hin : In a (_suggest_alternatives [] sample_interactions))
    by (left; reflexivity).
  split; [exact Hin|].
  exact (proj1 (proj2 (suggest_alternatives_is_capped [] sample_interactions))
           a Hin).
Defined.

Lemma advise_cases (age : Z) (drug : DrugInfo) :
  da_drug (advise age drug) = di_name drug /\
  current_dosage (advise age drug) = di_dosage drug /\
  In (risk_level (advise age drug)) risk_levels /\
  ((18 <= age <= 65)%Z ->
   risk_level (advise age drug) = "Low" /\
   recommended_dosage (advise age drug) = di_dosage drug) /\
  ((age < 18)%Z -> risk_level (advise age drug) = "Medium" \/
                   risk_level (advise age drug) = "High") /\
  ((65 < age)%Z -> risk_level (advise age drug) <> "High") /\
  (risk_level (advise age drug) = "High" ->
   (age < 18)%Z /\ PyStr.contains "1000mg" (di_dosage drug) = true /\
   PyStr.contains "500mg" (di_dosage drug) = false).
Proof.
  unfold advise, risk_levels.
  destruct (age <? 18)%Z eqn:E1; [apply Z.ltb_lt in E1 | apply Z.ltb_ge in E1].
  - destruct (PyStr.contains "500mg" (di_dosage drug)) eqn:C5;
      [|destruct (PyStr.contains "1000mg" (di_dosage drug)) eqn:C1];
      simpl; repeat split; auto; try lia; try discriminate;
      try (intros; discriminate).
  - destruct (65 <? age)%Z eqn:E2;
      [apply Z.ltb_lt in E2 | apply Z.ltb_ge in E2].
    + destruct (PyStr.contains "1000mg" (di_dosage drug)) eqn:C1;
        [|destruct (PyStr.contains "500mg" (di_dosage drug)
                    && PyStr.contains "3/day" (di_frequency drug)) eqn:C5];
        simpl; repeat split; auto; try lia; try discriminate;
        try (intros; discriminate).
    + simpl; repeat split; auto; try lia; try discriminate;
        try (intros; discriminate).
Qed.

(** [_get_age_based_dosage_advice] gives one advice per drug, in order,
    with the drug's name and dosage; its risk level is "Low", "Medium" or
    "High"; from 18 to 65 every advice is "Low" and recommends the
    current dosage; under 18 none is "Low"; over 65 none is "High". *)
Theorem dosage_advice_follows_age_band :
  forall (drugs : list DrugInfo) (age : Z),
    let advice_list := _get_age_based_dosage_advice drugs age in
    map da_drug advice_list = map di_name drugs /\
    map current_dosage advice_list = map di_dosage drugs /\
    (forall a, In a advice_list -> In (risk_level a) risk_levels) /\
    ((18 <= age <= 65)%Z ->
     forall a, In a advice_list ->
               risk_level a = "Low" /\
               recommended_dosage a = current_dosage a) /\
    ((age < 18)%Z -> forall a, In a advice_list -> risk_level a <> "Low") /\
    ((65 < age)%Z -> forall a, In a advice_list -> risk_level a <> "High").
Proof.
  intros drugs age advice_list. unfold advice_list,
    _get_age_based_dosage_advice.
  split; [|split; [|split; [|split; [|split]]]].
  - rewrite map_map. apply map_ext. intros d. apply advise_cases.
  - rewrite map_map. apply map_ext. intros d. apply advise_cases.
  - intros a Hin. apply in_map_iff in Hin. destruct Hin as [d [<- _]].
    apply advise_cases.
  - intros Hage a Hin. apply in_map_iff in Hin. destruct Hin as [d [<- _]].
    destruct (advise_cases age d) as (_ & Hc & _ & Hadult & _).
    rewrite Hc. apply Hadult. exact Hage.
  - intros Hage a Hin. apply in_map_iff in Hin. destruct Hin as [d [<- _]].
    destruct (advise_cases age d) as (_ & _ & _ & _ & Hchild & _).
    destruct (Hchild Hage) as [H|H]; rewrite H; discriminate.
  - intros Hage a Hin. apply in_map_iff in Hin. destruct Hin as [d [<- _]].
    destruct (advise_cases age d) as (_ & _ & _ & _ & _ & Hold & _).
    apply Hold. exact Hage.
Qed.

Lemma dosage_advice_follows_age_band_witness :
  let d := mkDrugInfo "metformin" "1000mg" "2/day" None None in
  let a := mkDosageAdvice "metformin" "1000mg" "1000mg"
             "Standard adult dosage appropriate" "Low" in
  (18 <= 40 <= 65)%Z /\
  In a (_get_age_based_dosage_advice [d] 40) /\
  risk_level a = "Low" /\ recommended_dosage a = current_dosage a.
Proof.
  intros d a.
  assert (Hage : (18 <= 40 <= 65)%Z) by lia.
  assert (Hin : In a (_get_age_based_dosage_advice [d] 40))
    by (left; reflexivity).
  split; [exact Hage|]. split; [exact Hin|].
  exact (proj1 (proj2 (proj2 (proj2
           (dosage_advice_follows_age_band [d] 40)))) Hage a Hin).
Defined.

(** A dosage advice is "High" only for a patient under 18 whose dosage
    mentions "1000mg" and not "500mg" (so "1500mg", which contains
    "500mg", is rated "Medium"). *)
Theorem high_dosage_risk_is_pediatric :
  forall (drugs : list DrugInfo) (age : Z) (a : DosageAdvice),
    In a (_get_age_based_dosage_advice drugs age) ->
    risk_level a = "High" ->
    (age < 18)%Z /\
    PyStr.contains "1000mg" (current_dosage a) = true /\
    PyStr.contains "500mg" (current_dosage a) = false /\
    recommended_dosage a = PyStr.replace (current_dosage a) "1000mg" "500mg".
Proof.
  intros drugs age a Hin Hhigh.
  unfold _get_age_based_dosage_advice in Hin.
  apply in_map_iff in Hin. destruct Hin as [d [<- _]].
  destruct (advise_cases age d) as (_ & Hc & _ & _ & _ & _ & Hh).
  rewrite Hc. destruct (Hh Hhigh) as (Hage & H1 & H5).
  repeat split; auto.
  unfold advise. apply Z.ltb_lt in Hage. rewrite Hage, H5, H1. reflexivity.
Qed.

Lemma high_dosage_risk_is_pediatric_witness :
  let d := mkDrugInfo "amoxicillin" "1000mg" "2/day" None None in
  let a := mkDosageAdvice "amoxicillin" "1000mg" "500mg"
             "Significantly reduced dosage for pediatric use" "High" in
  In a (_get_age_based_dosage_advice [d] 9) /\
  (9 < 18)%Z /\
  PyStr.contains "1000mg" (current_dosage a) = true /\
  PyStr.contains "500mg" (current_dosage a) = false /\
  recommended_dosage a = PyStr.replace (current_dosage a) "1000mg" "500mg".
Proof.
  intros d a.
  assert (Hin : In a (_get_age_based_dosage_advice [d] 9))
    by (left; reflexivity).
  split; [exact Hin|].
  exact (high_dosage_risk_is_pediatric [d] 9 a Hin eq_refl).
Defined.

Example pediatric_1500mg_is_medium :
  map (fun a => (recommended_dosage a, risk_level a))
      (_get_age_based_dosage_advice
         [mkDrugInfo "amoxicillin" "1500mg" "2/day" None None] 9)
  = [("1250mg", "Medium")].
Proof. reflexivity. Qed.

Lemma count_advice_low (das : list DosageAdvice) (c : RiskCount) :
  (forall a, In a das -> risk_level a = "Low") ->
  fold_left count_advice das c = c.
Proof.
  revert c. induction das as [|a das IH]; intros c H; simpl; [reflexivity|].
  unfold count_advice at 2. rewrite (H a (or_introl eq_refl)). simpl.
  apply IH. intros b Hb. apply H. right. exact Hb.
Qed.

(** For a patient aged 18 to 65 the dosage advice never weighs on the
    overall risk, which is the one of the interactions alone; for a
    patient under 18 with at least one drug the overall risk is never
    "Low". *)
Theorem overall_risk_by_age_band :
  forall (irs : list InteractionResult) (drugs : list DrugInfo) (age : Z),
    ((18 <= age <= 65)%Z ->
     _calculate_overall_risk irs (_get_age_based_dosage_advice drugs age)
     = _calculate_overall_risk irs []) /\
    ((age < 18)%Z -> drugs <> [] ->
     _calculate_overall_risk irs (_get_age_based_dosage_advice drugs age)
     <> "Low").
Proof.
  intros irs drugs age. split.
  - intros Hage. unfold _calculate_overall_risk.
    rewrite count_advice_low; [reflexivity|].
    intros a Hin. unfold _get_age_based_dosage_advice in Hin.
    apply in_map_iff in Hin. destruct Hin as [d [<- _]].
    destruct (advise_cases age d) as (_ & _ & _ & Hadult & _).
    apply Hadult. exact Hage.
  - intros Hage Hne.
    set (das := _get_age_based_dosage_advice drugs age).
    pose proof (high_count_signal irs das) as Hh.
    assert (Hsig : high_signal irs das \/ medium_signal irs das).
    { destruct drugs as [|d rest]; [contradiction|].
      destruct (advise_cases age d) as (_ & _ & _ & _ & Hchild & _).
      assert (Hin : In (advise age d) das) by (left; reflexivity).
      destruct (Hchild Hage) as [H|H].
      - right. right. exists (advise age d). split; assumption.
      - left. right. exists (advise age d). split; assumption. }
    unfold _calculate_overall_risk. cbv zeta.
    set (c := fold_left count_advice das
                (fold_left count_interaction irs (mkRiskCount 0 0))) in *.
    destruct (0 <? high_risk_count c)%nat eqn:Eh; [discriminate|].
    apply Nat.ltb_ge in Eh.
    assert (Hno : ~ high_signal irs das) by (intros H; apply Hh in H; lia).
    pose proof (medium_count_signal irs das Hno) as Hm. fold c in Hm.
    destruct (0 <? medium_risk_count c)%nat eqn:Em; [discriminate|].
    apply Nat.ltb_ge in Em. exfalso.
    destruct Hsig as [H|H]; [exact (Hno H)|]. apply Hm in H. lia.
Qed.

Lemma overall_risk_by_age_band_witness :
  let d := mkDrugInfo "aspirin" "81mg" "1/day" None None in
  (18 <= 30 <= 65)%Z /\
  _calculate_overall_risk sample_interactions
    (_get_age_based_dosage_advice [d] 30)
  = _calculate_overall_risk sample_interactions [] /\
  (9 < 18)%Z /\ [d] <> [] /\
  _calculate_overall_risk [] (_get_age_based_dosage_advice [d] 9) <> "Low".
Proof.
  intros d.
  assert (H1 : (18 <= 30 <= 65)%Z) by lia.
  assert (H2 : (9 < 18)%Z) by lia.
  assert (H3 : [d] <> []) by discriminate.
  split; [exact H1|]. split.
  - exact (proj1 (overall_risk_by_age_band sample_interactions [d] 30) H1).
  - split; [exact H2|]. split; [exact H3|].
    exact (proj2 (overall_risk_by_age_band [] [d] 9) H2 H3).
Defined.

End DosageRules.

(** ** What the two endpoints answer *)

Section EndpointAnswers.

Import DatasetLoader Main Handlers.

(** The text endpoint answers 200 exactly when the extractor returns, and
    returns at least one drug; every other outcome, whatever was raised,
    is a 500 whose detail is "Analysis failed: " followed by the
    rendering of the exception. *)
Theorem text_endpoint_answers_200_or_500 :
  forall (svc : Services) (request : PrescriptionRequest),
    let outcome := analyze_prescription svc request in
    (status_of outcome = 200%nat <->
     exists found,
       extract_drugs svc (prescription_text request) = inr found /\
       drugs_or_empty found <> []) /\
    (status_of outcome = 200%nat \/ status_of outcome = 500%nat) /\
    (forall e,
        extract_drugs svc (prescription_text request) = inl e ->
        outcome
        = inl (HTTPException 500 ("Analysis failed: " ++ exc_str svc e))).
Proof.
  intros svc request outcome. unfold outcome, analyze_prescription,
    analyze_prescription_body, bind.
  destruct (extract_drugs svc (prescription_text request)) as [e|found].
  - simpl. split; [|split].
    + split; [discriminate | intros [f [H _]]; discriminate].
    + right. reflexivity.
    + intros e' H. inversion H; subst. reflexivity.
  - destruct (drugs_or_empty found) as [|d ds] eqn:E; simpl.
    + split; [|split].
      * split; [discriminate|]. intros [f [H Hne]]. inversion H; subst.
        contradiction.
      * right. reflexivity.
      * intros e H. discriminate.
    + split; [|split].
      * split; [|reflexivity]. intros _. exists found.
        split; [reflexivity|]. rewrite E. discriminate.
      * left. reflexivity.
      * intros e H. discriminate.
Qed.

Lemma text_endpoint_answers_200_or_500_witness :
  let request := mkPrescriptionRequest 70 "Aspirin 500mg" in
  (exists found,
      extract_drugs sample_services (prescription_text request) = inr found /\
      drugs_or_empty found <> []) /\
  status_of (analyze_prescription sample_services request) = 200%nat.
Proof.
  intros request.
  assert (H : exists found,
             extract_drugs sample_services (prescription_text request)
             = inr found /\ drugs_or_empty found <> []).
  { exists (Some [mkExtractedDrug "aspirin" "500mg" "3/day"]).
    split; [reflexivity | discriminate]. }
  split; [exact H|].
  exact (proj2 (proj1 (text_endpoint_answers_200_or_500
                         sample_services request)) H).
Defined.





(** An upload that cannot be written once its temporary file exists:
    the 413 raised on the way is lost to the 500 of the [finally]
    clause. *)
Example failed_write_answers_500 :
  let svc :=
    mkServices (extract_drugs sample_services)
      (extract_text_from_image sample_services)
      (fun _ => inl (HTTPException 413 "Upload too large"))
      (fun _ => true)
      sample_exc_str (now sample_services) sample_mapping sample_hoddi in
  analyze_prescription_image svc 30 sample_image
  = inl (HTTPException 500
           ("Image analysis failed: cannot access local variable "
            ++ "'temp_file_path' where it is not associated with a value")).
Proof. reflexivity. Qed.

(** *** The successful answer *)

Lemma summarize_spec (irs : list InteractionResult) (s : InteractionSummary) :
  In s (summarize irs) <->
  exists r, In r irs /\ ir_interaction r <> "None" /\
            s = mkInteractionSummary (ir_drug r) (ir_drugbank_id r)
                  (ir_interaction r)
                  (_extract_severity (ir_interaction r)).
Proof.
  unfold summarize. rewrite in_flat_map. split.
  - intros [r [Hr Hs]].
    destruct (ir_interaction r =? "None") eqn:E; simpl in Hs; [contradiction|].
    apply String.eqb_neq in E. destruct Hs as [<-|[]].
    exists r. repeat split; auto.
  - intros (r & Hr & Hn & ->). exists r. split; [exact Hr|].
    apply String.eqb_neq in Hn. rewrite Hn. simpl. left. reflexivity.
Qed.

Lemma overall_risk_levels (irs : list InteractionResult)
  (das : list DosageAdvice) :
  In (_calculate_overall_risk irs das) risk_levels.
Proof.
  unfold _calculate_overall_risk, risk_levels. cbv zeta.
  destruct (0 <? _)%nat; [simpl; tauto|].
  destruct (0 <? _)%nat; simpl; tauto.
Qed.

Lemma overall_risk_high (irs : list InteractionResult)
  (das : list DosageAdvice) :
  high_signal irs das -> _calculate_overall_risk irs das = "High".
Proof.
  intros H. apply high_count_signal in H. unfold _calculate_overall_risk.
  cbv zeta. apply Nat.ltb_lt in H. rewrite H. reflexivity.
Qed.

(** A successful answer of the text endpoint is consistent with what
    was extracted.  With [irs] the report of [get_interaction] on the
    names of the extracted drugs: the answer lists those drugs in order
    with their dosage and frequency, and one dosage advice per drug; its
    alternatives are at most two; its summary is, in order, exactly the
    entries of [irs] whose interaction is not "None", each with the
    severity read off its text; its overall risk is one of "Low",
    "Medium" and "High", and is "High" as soon as one summary entry has
    severity "High" or one dosage advice has risk level "High". *)
Theorem successful_answer_is_consistent :
  forall (svc : Services) (request : PrescriptionRequest)
         (response : AnalysisResponse),
    analyze_prescription svc request = inr response ->
    exists found,
      let irs := get_interaction (drug_mapping svc) (hoddi_data svc)
                   (map ed_name found) in
      extract_drugs svc (prescription_text request) = inr (Some found) /\
      found <> [] /\
      map di_name (extracted_drugs response) = map ed_name found /\
      map di_dosage (extracted_drugs response) = map ed_dosage found /\
      map di_frequency (extracted_drugs response) = map ed_frequency found /\
      map da_drug (dosage_advice response) = map ed_name found /\
      (List.length (alternatives response) <= 2)%nat /\
      interactions response
      = map (fun r =>
               mkInteractionSummary (ir_drug r) (ir_drugbank_id r)
                 (ir_interaction r) (_extract_severity (ir_interaction r)))
            (filter (fun r => negb (ir_interaction r =? "None")) irs) /\
      (forall r, In r irs -> ir_interaction r <> "None" ->
                 exists s, In s (interactions response) /\
                           is_drug s = ir_drug r /\
                           is_drugbank_id s = ir_drugbank_id r /\
                           is_interaction s = ir_interaction r) /\
      (forall s, In s (interactions response) ->
                 is_interaction s <> "None" /\
                 is_severity s = _extract_severity (is_interaction s)) /\
      In (overall_risk response) risk_levels /\
      ((exists s, In s (interactions response) /\ is_severity s = "High") ->
       overall_risk response = "High") /\
      ((exists a, In a (dosage_advice response) /\ risk_level a = "High") ->
       overall_risk response = "High") /\
      timestamp response = now svc.
Proof.
  intros svc request response H.
  unfold analyze_prescription, analyze_prescription_body, bind in H.
  destruct (extract_drugs svc (prescription_text request)) as [e|found];
    [discriminate H|].
  destruct found as [found|]; [|discriminate H].
  simpl in H. destruct found as [|d ds]; [discriminate H|].
  inversion H; subst response; clear H.
  exists (d :: ds). cbv zeta.
  split; [reflexivity|]. split; [discriminate|].
  set (the_drugs := d :: ds).
  set (irs := get_interaction (drug_mapping svc) (hoddi_data svc)
                (map ed_name the_drugs)).
  assert (Hen : forall x,
             di_name (enhance irs x) = ed_name x /\
             di_dosage (enhance irs x) = ed_dosage x /\
             di_frequency (enhance irs x) = ed_frequency x).
  { intros x. unfold enhance. destruct (List.find _ irs); simpl; auto. }
  unfold analyze. fold the_drugs. fold irs. cbv zeta.
  cbn [extracted_drugs interactions dosage_advice alternatives overall_risk
       timestamp].
  split; [rewrite map_map; apply map_ext; intros x; apply Hen|].
  split; [rewrite map_map; apply map_ext; intros x; apply Hen|].
  split; [rewrite map_map; apply map_ext; intros x; apply Hen|].
  split.
  { unfold _get_age_based_dosage_advice. rewrite !map_map.
    apply map_ext. intros x.
    destruct (advise_cases (age request) (enhance irs x)) as [Hn _].
    rewrite Hn. apply Hen. }
  split; [unfold _suggest_alternatives; apply firstn_le_length|].
  split.
  { unfold summarize. clear. induction irs as [|r l IH]; [reflexivity|].
    cbn [flat_map filter]. rewrite IH.
    destruct (ir_interaction r =? "None"); reflexivity. }
  split.
  { intros r Hr Hn. eexists. split.
    - apply summarize_spec. exists r. repeat split; eauto.
    - repeat split. }
  split.
  { intros s Hs. apply summarize_spec in Hs.
    destruct Hs as (r & _ & Hn & ->). split; [exact Hn | reflexivity]. }
  split; [apply overall_risk_levels|].
  split.
  { intros (s & Hs & Hsev). apply overall_risk_high. left.
    apply summarize_spec in Hs. destruct Hs as (r & Hr & Hn & ->).
    simpl in Hsev. exists r. split; [exact Hr|]. split; [exact Hn|].
    apply severity_high. exact Hsev. }
  split; [|reflexivity].
  intros (a & Ha & Hl). apply overall_risk_high. right.
  exists a. split; assumption.
Qed.

Lemma successful_answer_is_consistent_witness :
  let request := mkPrescriptionRequest 70 "Aspirin 500mg" in
  exists response,
    analyze_prescription sample_services request = inr response /\
    map di_name (extracted_drugs response) = ["aspirin"] /\
    In (overall_risk response) risk_levels.
Proof.
  intros request.
  destruct (analyze_prescription sample_services request)
    as [e|response] eqn:E; [discriminate E|].
  exists response. split; [reflexivity|].
  destruct (successful_answer_is_consistent sample_services request
              response E)
    as (found & Hf & _ & Hn & _ & _ & _ & _ & _ & _ & _ & Hr & _).
  split; [|exact Hr].
  rewrite Hn. inversion Hf. reflexivity.
Defined.

Lemma report_names (m : DrugMapping) (h : HoddiData) (drugs : list string) :
  map ir_drug (get_interaction m h drugs) = map PyStr.strip drugs.
Proof.
  unfold get_interaction. rewrite map_map.
  rewrite <- (map_snd_enumerate_from _ drugs 0) at 2.
  rewrite map_map. apply map_ext. intros [i d]. reflexivity.
Qed.

Lemma find_first (A : Type) (p : A -> bool) (l : list A) (x : A) :
  List.find p l = Some x ->
  exists before after,
    l = (before ++ x :: after)%list /\ p x = true /\
    forall y, In y before -> p y = false.
Proof.
  induction l as [|y l IH]; simpl; [discriminate|].
  destruct (p y) eqn:E.
  - intros H. inversion H; subst. exists [], l.
    repeat split; auto. intros z [].
  - intros H. destruct (IH H) as (before & after & -> & Hx & Hb).
    exists (y :: before), after. repeat split; auto.
    intros z [<-|Hz]; [exact E | apply Hb; exact Hz].
Qed.

(** Each extracted drug of a successful answer is completed from the
    report [irs] of [get_interaction] on the extracted names: when an
    entry of [irs] has its name up to letter case, the drug takes the
    identifier and the interaction text of the first such entry; when
    none has, the drug has no identifier and the interaction text
    "None"; and a drug whose name has no whitespace around it always
    finds an entry. *)
Theorem enhanced_drug_has_identifier :
  forall (svc : Services) (request : PrescriptionRequest)
         (response : AnalysisResponse) (d : DrugInfo),
    analyze_prescription svc request = inr response ->
    In d (extracted_drugs response) ->
    exists found,
      let irs := get_interaction (drug_mapping svc) (hoddi_data svc)
                   (map ed_name found) in
      let same_name := fun r =>
        PyStr.lower (ir_drug r) = PyStr.lower (di_name d) in
      extract_drugs svc (prescription_text request) = inr (Some found) /\
      ((exists r, In r irs /\ same_name r) ->
       exists before r after,
         irs = (before ++ r :: after)%list /\ same_name r /\
         (forall r', In r' before -> ~ same_name r') /\
         di_drugbank_id d = Some (ir_drugbank_id r) /\
         di_interaction d = Some (ir_interaction r)) /\
      ((forall r, In r irs -> ~ same_name r) ->
       di_drugbank_id d = None /\ di_interaction d = Some "None") /\
      (PyStr.strip (di_name d) = di_name d ->
       exists r, In r irs /\ same_name r).
Proof.
  intros svc request response d H Hd.
  unfold analyze_prescription, analyze_prescription_body, bind in H.
  destruct (extract_drugs svc (prescription_text request)) as [e|found];
    [discriminate H|].
  destruct found as [found|]; [|discriminate H].
  simpl in H. destruct found as [|x xs]; [discriminate H|].
  inversion H; subst response; clear H.
  exists (x :: xs). cbv zeta. split; [reflexivity|].
  set (the_drugs := x :: xs) in *.
  set (irs := get_interaction (drug_mapping svc) (hoddi_data svc)
                (map ed_name the_drugs)).
  unfold analyze in Hd. fold the_drugs in Hd. fold irs in Hd.
  cbn [extracted_drugs] in Hd. apply in_map_iff in Hd.
  destruct Hd as [y [<- Hy]].
  assert (Hname : di_name (enhance irs y) = ed_name y)
    by (unfold enhance; destruct (List.find _ irs); reflexivity).
  rewrite Hname.
  set (p := fun result =>
              PyStr.lower (ir_drug result) =? PyStr.lower (ed_name y)).
  assert (Hcases :
            (exists before r after,
                irs = (before ++ r :: after)%list /\
                PyStr.lower (ir_drug r) = PyStr.lower (ed_name y) /\
                (forall r', In r' before ->
                            PyStr.lower (ir_drug r')
                            <> PyStr.lower (ed_name y)) /\
                di_drugbank_id (enhance irs y) = Some (ir_drugbank_id r) /\
                di_interaction (enhance irs y) = Some (ir_interaction r))
            \/ ((forall r, In r irs ->
                           PyStr.lower (ir_drug r)
                           <> PyStr.lower (ed_name y)) /\
                di_drugbank_id (enhance irs y) = None /\
                di_interaction (enhance irs y) = Some "None")).
  { unfold enhance. fold p. destruct (List.find p irs) as [info|] eqn:F.
    - left. destruct (find_first _ p irs info F)
        as (before & after & Hs & Hp & Hb).
      exists before, info, after. split; [exact Hs|].
      split; [apply String.eqb_eq; exact Hp|].
      split; [|split; reflexivity].
      intros r' Hr'. apply String.eqb_neq. exact (Hb r' Hr').
    - right. split; [|split; reflexivity].
      intros r Hr. apply String.eqb_neq. exact (find_none _ _ F r Hr). }
  split; [|split].
  - intros (r & Hr & Hsame).
    destruct Hcases as [Hc|[Hno _]]; [exact Hc|].
    exfalso. exact (Hno r Hr Hsame).
  - intros Hno. destruct Hcases as [(before & r & after & Hs & Hsame & _)|Hc].
    + exfalso. apply (Hno r); [|exact Hsame].
      rewrite Hs. apply in_or_app. right. left. reflexivity.
    + tauto.
  - intros Hs.
    assert (Hin : In (ed_name y) (map ir_drug irs)).
    { unfold irs. rewrite report_names, <- Hs.
      apply in_map. apply in_map. exact Hy. }
    apply in_map_iff in Hin. destruct Hin as [r [Hr Hin]].
    exists r. split; [exact Hin|]. rewrite Hr. reflexivity.
Qed.

Lemma enhanced_drug_has_identifier_witness :
  let request := mkPrescriptionRequest 70 "Aspirin 500mg" in
  let d := mkDrugInfo "aspirin" "500mg" "3/day" (Some "DB00945")
             (Some "None") in
  exists response,
    analyze_prescription sample_services request = inr response /\
    In d (extracted_drugs response) /\
    exists found,
      extract_drugs sample_services (prescription_text request)
      = inr (Some found).
Proof.
  intros request d.
  destruct (analyze_prescription sample_services request)
    as [e|response] eqn:E; [discriminate E|].
  exists response. split; [reflexivity|].
  assert (Hin : In d (extracted_drugs response)).
  { inversion E. left. reflexivity. }
  split; [exact Hin|].
  destruct (enhanced_drug_has_identifier sample_services request
              response d E Hin) as (found & Hf & _).
  exists found. exact Hf.
Defined.

(** A name reported with a leading space misses its own entry: the
    interaction with warfarin is found for " aspirin" in the report but
    not carried to the drug. *)
Example untrimmed_name_misses_its_entry :
  let found := [mkExtractedDrug " aspirin" "81mg" "1/day";
                mkExtractedDrug "warfarin" "5mg" "1/day"] in
  let irs := get_interaction sample_mapping sample_hoddi
               (map ed_name found) in
  map ir_interaction irs
  = ["with warfarin: Severe: bleeding risk";
     "with  aspirin: Severe: bleeding risk"] /\
  map (fun d => (di_drugbank_id d, di_interaction d))
      (map (enhance irs) found)
  = [(None, Some "None");
     (Some "DB00682", Some "with  aspirin: Severe: bleeding risk")].
Proof. split; reflexivity. Qed.

End EndpointAnswers.

(** ** More on entity fusion *)

Section FusionMore.

Import MedicalNLPExtractor FusionOrder.

Lemma dict_get_some_key (d : AllDrugs) (key : string) :
  In key (map fst d) -> exists e, dict_get d key = Some e.
Proof.
  intros H. destruct (dict_get d key) as [e|] eqn:G; [exists e; reflexivity|].
  apply dict_get_none in G. contradiction.
Qed.

(** A detection already seen changes nothing. *)
Lemma record_detection_seen (seen : list Detection) (all_drugs : AllDrugs)
  (d : Detection) :
  fused_inv seen all_drugs -> In d seen ->
  record_detection all_drugs d = all_drugs.
Proof.
  intros (Hnd & Hent & Hkeys) Hin.
  unfold record_detection, record_mention. fold (d_key d).
  destruct (dict_get_some_key all_drugs (d_key d) (Hkeys d Hin))
    as [stored G].
  rewrite G. pose proof (dict_get_in _ _ _ G) as Hs.
  destruct (Hent _ _ Hs) as (d0 & Hk0 & -> & Hw0).
  change (e_confidence (entry_of d0)) with (d_confidence d0).
  assert (L : (d_confidence d <= d_confidence d0)%Q)
    by (apply (wins_bound d0 seen Hw0 d Hin); congruence).
  apply Qltb_ge in L. rewrite L. reflexivity.
Qed.

Lemma fold_detections_seen (l seen : list Detection) (all_drugs : AllDrugs) :
  fused_inv seen all_drugs -> (forall d, In d l -> In d seen) ->
  fold_left record_detection l all_drugs = all_drugs.
Proof.
  intros Hinv. induction l as [|d l IH]; intros H; simpl; [reflexivity|].
  rewrite (record_detection_seen seen all_drugs d Hinv
             (H d (or_introl eq_refl))).
  apply IH. intros x Hx. apply H. right. exact Hx.
Qed.

Lemma find_app_same (A : Type) (p : A -> bool) (l l' : list A) :
  List.find p (l ++ l')%list =
  match List.find p l with
  | Some x => Some x
  | None => List.find p l'
  end.
Proof.
  induction l as [|x l IH]; simpl; [reflexivity|].
  destruct (p x); [reflexivity | exact IH].
Qed.

(** Fusion absorbs what it has already seen: results whose detections all
    occur among those of the results before them add no entity and
    change none, and feeding the same results twice gives the entities
    of feeding them once. *)
Theorem fusion_absorbs_repeats :
  forall (the_results more : list ExtractionResult) (text : string),
    ((forall d, In d (detections more) -> In d (detections the_results)) ->
     all_drugs_of (the_results ++ more) = all_drugs_of the_results) /\
    _combine_drug_extractions (the_results ++ the_results) text
    = _combine_drug_extractions the_results text.
Proof.
  intros rs more text.
  assert (Habs : forall extra,
             (forall d, In d (detections extra) -> In d (detections rs)) ->
             all_drugs_of (rs ++ extra) = all_drugs_of rs).
  { intros extra H. rewrite !all_drugs_detections. unfold detections.
    rewrite flat_map_app, fold_left_app.
    fold (detections rs). fold (detections extra).
    rewrite <- all_drugs_detections.
    apply (fold_detections_seen _ (detections rs)); [|exact H].
    apply all_drugs_inv. }
  split; [apply Habs|].
  unfold _combine_drug_extractions.
  rewrite (Habs rs (fun d H => H)).
  replace (pattern_data_of (rs ++ rs)) with (pattern_data_of rs);
    [reflexivity|].
  unfold pattern_data_of. rewrite find_app_same.
  destruct (List.find _ rs); reflexivity.
Qed.

Lemma fusion_absorbs_repeats_witness :
  let first := [ner_result ["Aspirin"; "Warfarin"] (85 # 100)] in
  let more := [ner_result ["Warfarin"] (85 # 100)] in
  (forall d, In d (detections more) -> In d (detections first)) /\
  all_drugs_of (first ++ more) = all_drugs_of first.
Proof.
  intros first more.
  assert (H : forall d, In d (detections more) -> In d (detections first)).
  { intros d [<-|[]]. right. left. reflexivity. }
  split; [exact H|].
  exact (proj1 (fusion_absorbs_repeats first more EmptyString) H).
Defined.

(** *** Order *)

Lemma existsb_key (key : string) (keys : list string) :
  existsb (String.eqb key) keys = true <-> In key keys.
Proof.
  rewrite existsb_exists. split.
  - intros [x [Hx E]]. apply String.eqb_eq in E. subst x. exact Hx.
  - intros H. exists key. split; [exact H | apply String.eqb_refl].
Qed.

Lemma dict_set_present (d : AllDrugs) (key : string) (e : Entry) :
  In key (map fst d) -> map fst (dict_set d key e) = map fst d.
Proof.
  induction d as [|[k v] d IH]; simpl; [contradiction|].
  destruct (k =? key) eqn:E; simpl; [reflexivity|].
  apply String.eqb_neq in E. intros [H|H]; [contradiction|].
  rewrite (IH H). reflexivity.
Qed.

Lemma dict_set_absent (d : AllDrugs) (key : string) (e : Entry) :
  ~ In key (map fst d) ->
  map fst (dict_set d key e) = (map fst d ++ [key])%list.
Proof.
  induction d as [|[k v] d IH]; simpl; intros H; [reflexivity|].
  destruct (k =? key) eqn:E.
  - apply String.eqb_eq in E. tauto.
  - simpl. rewrite IH; [reflexivity | tauto].
Qed.

Lemma record_detection_keys (all_drugs : AllDrugs) (d : Detection) :
  map fst (record_detection all_drugs d)
  = add_key (map fst all_drugs) (d_key d).
Proof.
  unfold record_detection, record_mention, add_key. fold (d_key d).
  destruct (dict_get all_drugs (d_key d)) as [stored|] eqn:G.
  - apply dict_get_in in G. apply (in_map fst) in G. simpl in G.
    rewrite (proj2 (existsb_key _ _) G).
    destruct (Qltb (e_confidence stored) (d_confidence d));
      [apply dict_set_present; exact G | reflexivity].
  - apply dict_get_none in G.
    destruct (existsb (String.eqb (d_key d)) (map fst all_drugs)) eqn:E.
    + apply existsb_key in E. contradiction.
    + apply dict_set_absent. exact G.
Qed.

Lemma fold_detection_keys (l : list Detection) (all_drugs : AllDrugs) :
  map fst (fold_left record_detection l all_drugs)
  = fold_left add_key (map d_key l) (map fst all_drugs).
Proof.
  revert all_drugs. induction l as [|d l IH]; intros ad; simpl;
    [reflexivity|].
  rewrite IH, record_detection_keys. reflexivity.
Qed.

(** The fused entities come out in the order in which their keys were
    first met: the keys of the output are the keys of the detections,
    each at its first occurrence (a later, more confident mention takes
    over the entry where it stands). *)
Theorem fused_entities_keep_first_seen_order :
  forall (the_results : list ExtractionResult) (text : string),
    map (fun e => name_key (de_name e))
        (_combine_drug_extractions the_results text)
    = first_seen (map d_key (detections the_results)).
Proof.
  intros rs text. unfold _combine_drug_extractions, first_seen.
  rewrite map_map.
  destruct (all_drugs_inv rs) as (_ & Hent & _).
  rewrite (map_ext_in _ fst).
  - rewrite all_drugs_detections. apply fold_detection_keys.
  - intros [k en] Hin. simpl.
    destruct (Hent _ _ Hin) as (d0 & Hk0 & -> & _). exact Hk0.
Qed.

Example fused_order_runs :
  map de_name
      (_combine_drug_extractions
         [biobert_result ["Aspirin"; "Warfarin"] (7 # 10);
          ner_result ["WARFARIN"; "Metformin"; "aspirin"] (85 # 100)]
         EmptyString)
  = ["aspirin"; "WARFARIN"; "Metformin"].
Proof. reflexivity. Qed.

(** *** Attributes *)

Lemma closest_match_is_candidate (drug_name : string)
  (candidates : list string) (text : string) :
  _find_closest_match drug_name candidates text = EmptyString \/
  In (_find_closest_match drug_name candidates text) candidates.
Proof.
  unfold _find_closest_match.
  destruct candidates as [|first rest]; [left; reflexivity|].
  fold (position text drug_name).
  destruct (position text drug_name =? -1)%Z; [right; left; reflexivity|].
  pose proof (closest_fold_inv text drug_name (first :: rest) []
                (EmptyString, None)) as H.
  simpl app in H.
  assert (H0 : closest_inv text drug_name [] (EmptyString, None)).
  { split; [reflexivity | intros c []]. }
  specialize (H H0). unfold closest_inv in H.
  remember (fold_left (closest_step text (position text drug_name))
              (first :: rest) (EmptyString, None)) as st eqn:Est.
  clear Est. destruct st as [best [m|]]; cbn [fst snd] in H |- *.
  - destruct H as (before & after & Hs & _). right. rewrite Hs.
    apply in_or_app. right. left. reflexivity.
  - left. tauto.
Qed.

(** Every attribute of a fused entity is the empty string or one of the
    candidates the first 'Pattern Matching' result lists for it; the
    instructions are always empty; and without such a result (or without
    its list) the attribute is the empty string. *)
Theorem fused_attributes_come_from_patterns :
  forall (the_results : list ExtractionResult) (text : string)
         (e : DrugEntity),
    In e (_combine_drug_extractions the_results text) ->
    let data := pattern_data_of the_results in
    (de_dosage e = EmptyString \/
     In (de_dosage e) (field pd_dosages data)) /\
    (de_frequency e = EmptyString \/
     In (de_frequency e) (field pd_frequencies data)) /\
    (de_route e = EmptyString \/
     In (de_route e) (field pd_routes data)) /\
    (de_duration e = EmptyString \/
     In (de_duration e) (field pd_durations data)) /\
    de_instructions e = EmptyString /\
    (data = None ->
     de_dosage e = EmptyString /\ de_frequency e = EmptyString /\
     de_route e = EmptyString /\ de_duration e = EmptyString).
Proof.
  intros rs text e Hin data. unfold data.
  unfold _combine_drug_extractions in Hin. apply in_map_iff in Hin.
  destruct Hin as [[k en] [<- _]]. unfold entity_of. simpl.
  repeat split; try apply closest_match_is_candidate.
  all: rewrite H; reflexivity.
Qed.

Lemma fused_attributes_come_from_patterns_witness :
  let the_results :=
    [ner_result ["Warfarin"] (85 # 100);
     pattern_result ["Aspirin"] ["100mg"; "5mg"]] in
  let text := "Aspirin 100mg daily, Warfarin 5mg" in
  let e := mkDrugEntity "Warfarin" "5mg" EmptyString EmptyString EmptyString
             EmptyString (85 # 100) in
  In e (_combine_drug_extractions the_results text) /\
  (de_dosage e = EmptyString \/ In (de_dosage e) ["100mg"; "5mg"]).
Proof.
  intros the_results text e.
  assert (Hin : In e (_combine_drug_extractions the_results text))
    by (left; reflexivity).
  split; [exact Hin|].
  exact (proj1 (fused_attributes_come_from_patterns the_results text e Hin)).
Defined.

End FusionMore.

(** ** More on the acquisition cascade *)

Section CascadeMore.

Import Calls OCRReader.

(** The cascade fails only for want of any result: on an image that
    could be opened it raises exactly when the three engines all return
    nothing, having invoked them all; a result it returns is the answer
    of one of the engines; and on an image that cannot be opened it
    raises without invoking any engine. *)
Theorem cascade_fails_only_when_all_silent :
  forall (Input Picture Bytes : Type) (rd : Reader Input Picture Bytes)
         (image_file : Input),
    let run := extract_text_from_image rd image_file in
    (forall msg,
        prepare rd image_file = inl msg ->
        run = ([], inl ("OCR extraction failed: " ++ msg))) /\
    (forall processed_image image_bytes,
        prepare rd image_file = inr (processed_image, image_bytes) ->
        let paddle := _extract_with_paddle_ocr rd processed_image in
        let watson := _extract_with_watson rd image_bytes in
        let tesseract := _extract_with_tesseract rd processed_image in
        ((exists msg, value run = inl msg) <->
         paddle = None /\ watson = None /\ tesseract = None) /\
        (paddle = None -> watson = None -> tesseract = None ->
         run = (every_engine, inl ("OCR extraction failed: " ++ all_failed)))
        /\
        (forall r, value run = inr r ->
                   paddle = Some r \/ watson = Some r \/ tesseract = Some r)).
Proof.
  intros Input Picture Bytes rd image_file run. split.
  - intros msg H. unfold run, extract_text_from_image. rewrite H.
    reflexivity.
  - intros pic bytes H paddle watson tesseract.
    unfold run, extract_text_from_image. rewrite H.
    fold paddle. fold watson. fold tesseract.
    clearbody paddle watson tesseract.
    unfold bind, call, ret, value, clears, pool_of, max_by_confidence,
      every_engine.
    destruct paddle as [p|]; destruct watson as [w|];
      destruct tesseract as [t|]; simpl;
      repeat match goal with
             | |- context [OCRReader.Qltb ?a ?b] =>
                 destruct (OCRReader.Qltb a b); simpl
             end;
      (split; [split; [intros [msg Hm]; discriminate Hm
                      | intros (H1 & H2 & H3); discriminate]
              | split; [intros; discriminate
                       | intros r Hr; inversion Hr; subst; auto]])
      || (split; [split; [intros _; auto | intros _; eexists; reflexivity]
                 | split; [reflexivity | intros r Hr; discriminate Hr]]).
Qed.

Lemma cascade_fails_only_when_all_silent_witness :
  let rd := sample_reader None None None in
  prepare rd 0%nat = inr (0%nat, 0%nat) /\
  extract_text_from_image rd 0%nat
  = (every_engine, inl ("OCR extraction failed: " ++ all_failed)).
Proof.
  intros rd. split; [reflexivity|].
  exact (proj1 (proj2 (proj2 (cascade_fails_only_when_all_silent
                                nat nat nat rd 0%nat) 0%nat 0%nat eq_refl))
           eq_refl eq_refl eq_refl).
Defined.

End CascadeMore.

(** ** More on the extraction entry point *)

Section EntryPointMore.

Import Calls NLPExtractor.

Lemma standardize_named (item : ModelItem) (r : DrugRecord) :
  In r (standardize item) -> drug_name r <> EmptyString.
Proof.
  destruct item as [dn n d f ro|]; simpl; [|contradiction].
  destruct (PyStr.truthy (get_or dn (get_or n EmptyString))) eqn:T;
    [|contradiction].
  intros [<-|[]]. simpl. intros E. rewrite E in T. discriminate.
Qed.

(** On a text that is not blank the model is queried first, once.  Its
    drugs are returned, each with a non-empty name, when its answer has
    no "error" key and yields at least one named drug; in every other
    case (an "error" key even beside drugs, no "drugs" key, no named
    drug) the rule-based extraction runs after it and its result is
    returned. *)
Theorem entry_point_falls_back :
  forall (query_gatortron : string -> ModelAnswer)
         (_rule_based_extraction : string -> list DrugRecord)
         (medical_text : string),
    only_whitespace medical_text = false ->
    let answer := query_gatortron medical_text in
    let named :=
      match answer_drugs answer with
      | Some items => flat_map standardize items
      | None => []
      end in
    let run :=
      extract_drug_info query_gatortron _rule_based_extraction medical_text in
    (has_error answer = false -> named <> [] ->
     run = ([QueryGatortron], named)) /\
    (has_error answer = true \/ named = [] ->
     run = ([QueryGatortron; RuleBasedExtraction],
            _rule_based_extraction medical_text)) /\
    (forall r, In r named -> drug_name r <> EmptyString).
Proof.
  intros q rb text Hb answer named run.
  assert (Hg : negb (PyStr.truthy text)
               || negb (PyStr.truthy (PyStr.strip text)) = false).
  { destruct (negb (PyStr.truthy text)
              || negb (PyStr.truthy (PyStr.strip text))) eqn:G;
      [|reflexivity].
    apply guard_is_blank in G. congruence. }
  unfold run, extract_drug_info. rewrite Hg. fold answer.
  unfold bind, call, ret. split; [|split].
  - intros He Hn. rewrite He. simpl. fold named.
    destruct named as [|x l]; [contradiction | reflexivity].
  - intros [He|Hn].
    + rewrite He. reflexivity.
    + destruct (has_error answer); simpl; [reflexivity|].
      fold named. rewrite Hn. reflexivity.
  - intros r Hr. unfold named in Hr.
    destruct (answer_drugs answer) as [items|]; [|contradiction].
    apply in_flat_map in Hr. destruct Hr as [item [_ Hr]].
    exact (standardize_named item r Hr).
Qed.

Lemma entry_point_falls_back_witness :
  let query := fun _ : string =>
    mkModelAnswer true
      (Some [ItemDict (Some "aspirin") None None None None]) in
  let fallback := fun _ : string =>
    [mkDrugRecord "Aspirin" "81mg" EmptyString EmptyString] in
  only_whitespace "Aspirin 81mg" = false /\
  extract_drug_info query fallback "Aspirin 81mg"
  = ([QueryGatortron; RuleBasedExtraction],
     [mkDrugRecord "Aspirin" "81mg" EmptyString EmptyString]).
Proof.
  intros query fallback. split; [reflexivity|].
  apply (proj1 (proj2 (entry_point_falls_back query fallback "Aspirin 81mg"
                         eq_refl))).
  left. reflexivity.
Defined.

End EntryPointMore.

(** ** The dosage calculator and its shared table *)

Section DosageTable.

Import DosageSystem.

Variable int_of_product : Q -> Q -> Z.

Lemma db_get_set_same (db : Database) (key : string) (info : DrugRecord)
  (ws : list string) :
  db_get db key = Some info ->
  db_get (db_set_warnings db key ws) key
  = Some (mkDrugRecord (base_dose info) (elderly_reduction info)
            (interactions info) ws (alternatives info)).
Proof.
  induction db as [|[k v] db IH]; simpl; [discriminate|].
  destruct (k =? key) eqn:E; simpl; rewrite E.
  - intros H. inversion H; subst. reflexivity.
  - exact IH.
Qed.

Lemma db_get_set_other (db : Database) (key other : string)
  (ws : list string) :
  other <> key ->
  db_get (db_set_warnings db key ws) other = db_get db other.
Proof.
  intros Hne. induction db as [|[k v] db IH]; simpl; [reflexivity|].
  destruct (k =? key) eqn:E; simpl.
  - apply String.eqb_eq in E. subst k.
    destruct (key =? other) eqn:E'; [|reflexivity].
    apply String.eqb_eq in E'. congruence.
  - rewrite IH. reflexivity.
Qed.

Lemma db_set_keys (db : Database) (key : string) (ws : list string) :
  map fst (db_set_warnings db key ws) = map fst db.
Proof.
  induction db as [|[k v] db IH]; simpl; [reflexivity|].
  destruct (k =? key); simpl; [reflexivity | rewrite IH; reflexivity].
Qed.

(** What one call does to the entry of [key]. *)
Lemma calculate_dosage_entry (db : Database) (c : Call) (key : string)
  (info : DrugRecord) :
  db_get db key = Some info ->
  db_get (snd (calculate_dosage int_of_product db (c_drug c) (c_age c)
                 (c_weight c))) key
  = Some (mkDrugRecord (base_dose info) (elderly_reduction info)
            (interactions info)
            (warnings info
             ++ (if pediatric_for key c then [pediatric_warning] else []))
            (alternatives info)).
Proof.
  intros G.
  assert (Hsame : db_get db key
                  = Some (mkDrugRecord (base_dose info)
                            (elderly_reduction info) (interactions info)
                            (warnings info ++ []) (alternatives info))).
  { rewrite G, app_nil_r. destruct info; reflexivity. }
  unfold calculate_dosage, pediatric_for.
  destruct (String.eqb_spec (PyStr.lower (c_drug c)) key) as [E|E].
  - rewrite E, G. cbv zeta.
    destruct (c_age c <? 18)%Z eqn:A;
      destruct (weight_given (c_weight c)) eqn:W;
      destruct (65 <=? c_age c)%Z eqn:O; cbn [andb negb snd];
      try exact Hsame.
    + apply Z.ltb_lt in A. apply Z.leb_le in O. lia.
    + apply db_get_set_same. exact G.
  - cbn [andb].
    destruct (db_get db (PyStr.lower (c_drug c))) as [other|] eqn:G';
      [|exact Hsame].
    cbv zeta.
    destruct ((c_age c <? 18)%Z && weight_given (c_weight c)
              && negb (65 <=? c_age c)%Z); cbn [snd]; [|exact Hsame].
    rewrite db_get_set_other; [exact Hsame | congruence].
Qed.


End DosageTable.

Section DosageTableRuns.

Import DosageSystem.


Lemma serve_step (f : Q -> Q -> Z) (c : Call) (calls : list Call)
  (db : Database) :
  snd (serve f (c :: calls) db)
  = snd (serve f calls
           (snd (calculate_dosage f db (c_drug c) (c_age c) (c_weight c)))).
Proof.
  simpl.
  destruct (calculate_dosage f db (c_drug c) (c_age c) (c_weight c))
    as [a db1].
  simpl. destruct (serve f calls db1) as [answers db2]. reflexivity.
Qed.

Lemma serve_entry (f : Q -> Q -> Z) (calls : list Call) (db : Database)
  (key : string) (info : DrugRecord) :
  db_get db key = Some info ->
  db_get (snd (serve f calls db)) key
  = Some (mkDrugRecord (base_dose info) (elderly_reduction info)
            (interactions info)
            (warnings info
             ++ repeat pediatric_warning
                  (List.length (filter (pediatric_for key) calls)))
            (alternatives info)).
Proof.
  revert db info. induction calls as [|c calls IH]; intros db info G.
  - simpl. rewrite G, app_nil_r. destruct info; reflexivity.
  - rewrite serve_step.
    rewrite (IH _ _ (calculate_dosage_entry f db c key info G)).
    cbn [warnings base_dose elderly_reduction interactions alternatives
         filter].
    destruct (pediatric_for key c); simpl.
    + rewrite <- app_assoc. reflexivity.
    + rewrite app_nil_r. reflexivity.
Qed.

(** The pediatric warning piles up in the shared table: after any run of
    calls, the warnings the table holds for a known drug are those it
    held before followed by one pediatric warning per call of the run
    made for that drug, a patient under 18 and a weight given. *)
Theorem pediatric_warnings_pile_up :
  forall (f : Q -> Q -> Z) (calls : list Call) (db : Database)
         (key : string) (info : DrugRecord),
    db_get db key = Some info ->
    db_warnings (snd (serve f calls db)) key
    = (warnings info
       ++ repeat pediatric_warning
            (List.length (filter (pediatric_for key) calls)))%list.
Proof.
  intros f calls db key info G. unfold db_warnings.
  rewrite (serve_entry f calls db key info G). reflexivity.
Qed.

Lemma pediatric_warnings_pile_up_witness :
  let calls := [mkCall "Aspirin" 9 (Some (30 # 1));
                mkCall "aspirin" 40 None;
                mkCall "ASPIRIN" 12 (Some (41 # 1))] in
  db_warnings (snd (serve exact_int_of_product calls DRUG_DATABASE)) "aspirin"
  = ["GI bleeding risk"; "Avoid with peptic ulcers";
     pediatric_warning; pediatric_warning].
Proof.
  intros calls.
  exact (pediatric_warnings_pile_up exact_int_of_product calls DRUG_DATABASE
           "aspirin" _ eq_refl).
Defined.




(** A child and then an elderly patient, both on aspirin. *)
Example dosage_calls_run :
  map (fun a => (dosage_range a, frequency a, safety_score a, a_warnings a))
      (fst (serve exact_int_of_product
              [mkCall "Aspirin" 9 (Some (30 # 1)); mkCall "aspirin" 70 None;
               mkCall "Xyz" 30 None]
              DRUG_DATABASE))
  = [("48-72 mg", "twice daily", 85%Z,
      ["GI bleeding risk"; "Avoid with peptic ulcers"; pediatric_warning]);
     ("64-97 mg", "once daily", 72%Z,
      ["GI bleeding risk"; "Avoid with peptic ulcers"; pediatric_warning;
       elderly_warning]);
     ("Consult physician", "As prescribed", 50%Z,
      ["Unknown drug - consult healthcare provider"])].
Proof. reflexivity. Qed.

End DosageTableRuns.
